(** * CostInsight backend: cost router, metrics module and Lambda deployment script

    A shallow embedding of the three pieces of code in the repository:

    - the Express router that serves [POST /costs] (module [CostRouter]),
    - the Prometheus metrics module [backend/metrics.js] (module [Metrics]),
    - the Bash script that deploys the two Lambda functions (module [Deploy]).

    Module [Js] holds what the two JavaScript files share: values,
    completions and the monad in which statements run. *)

From Stdlib Require Import ZArith List String Bool SpecFloat.
Import ListNotations.

Local Open Scope string_scope.
Local Open Scope Z_scope.
Local Open Scope list_scope.

(* ====================================================================== *)
(** ** JavaScript values and control flow *)
(* ====================================================================== *)

Module Js.

(** Data that travels through the router: what a body parser produces, what a
    collaborator resolves or rejects with, and what is handed to [res.json].
    Numbers are binary64 floats.  Objects are property lists in insertion
    order; a well-formed object has no repeated key, and a read takes the
    first binding.  Values are finite trees: cyclic objects, functions,
    symbols and bigints are not represented. *)
#[warnings="-register-all"]
Inductive value : Type :=
| VUndefined
| VNull
| VBool (b : bool)
| VNum (x : spec_float)
| VStr (s : string)
| VArr (items : list value)
| VObj (props : list (string * value)).

(** [typeof v === 'object' && v !== null]: arrays are objects too. *)
Definition is_object (v : value) : bool :=
  match v with
  | VArr _ | VObj _ => true
  | _ => false
  end.

(** [v === undefined || v === null]. *)
Definition is_nullish (v : value) : bool :=
  match v with
  | VUndefined | VNull => true
  | _ => false
  end.

(** [v === 'lit'] for a string literal: strict equality never coerces, so
    only a string with the same characters is equal. *)
Definition strict_eq_str (v : value) (lit : string) : bool :=
  match v with
  | VStr s => String.eqb s lit
  | _ => false
  end.

Fixpoint own_lookup (key : string) (props : list (string * value)) : option value :=
  match props with
  | [] => None
  | (k, v) :: rest => if String.eqb k key then Some v else own_lookup key rest
  end.

(** The own property [key] of an object value, if it has one. *)
Definition field (key : string) (v : value) : option value :=
  match v with
  | VObj props => own_lookup key props
  | _ => None
  end.

Definition has_field (key : string) (v : value) : bool :=
  match field key v with
  | Some _ => true
  | None => false
  end.

(** The error object a failed property read throws. *)
Definition type_error (msg : string) : value :=
  VObj [("name", VStr "TypeError"); ("message", VStr msg)].

(** Reading a named property, [v.key] or [const { key } = v], for a [key]
    that is not an array index, not [length] and not defined by a built-in
    prototype (the router reads [cloudProvider] and [message] only).
    [None] stands for the [TypeError] raised on [undefined] and [null];
    booleans, numbers and strings are boxed and have no such property;
    arrays have none either; an object yields its own property or
    [undefined]. *)
Definition get_named (v : value) (key : string) : option value :=
  match v with
  | VUndefined | VNull => None
  | VBool _ | VNum _ | VStr _ | VArr _ => Some VUndefined
  | VObj props =>
      match own_lookup key props with
      | Some x => Some x
      | None => Some VUndefined
      end
  end.

(** How the evaluation of a statement ends: it runs to its end, it executes a
    [return], it throws, or it waits on a promise that never settles. *)
Inductive completion (A : Type) : Type :=
| Normal (a : A)
| Returned
| Thrown (e : value)
| Suspended.

Arguments Normal {A} a.
Arguments Returned {A}.
Arguments Thrown {A} e.
Arguments Suspended {A}.

(** Statements over a world [W] of mutable objects and recorded calls. *)
Definition M (W A : Type) : Type := W -> completion A * W.

Definition ret {W A} (a : A) : M W A := fun w => (Normal a, w).

Definition bind {W A B} (m : M W A) (k : A -> M W B) : M W B :=
  fun w =>
    match m w with
    | (Normal a, w') => k a w'
    | (Returned, w') => (Returned, w')
    | (Thrown e, w') => (Thrown e, w')
    | (Suspended, w') => (Suspended, w')
    end.

Definition throw {W A} (e : value) : M W A := fun w => (Thrown e, w).

(** [return e;] where [e] is evaluated for its effects only. *)
Definition return_ {W A} (m : M W unit) : M W A :=
  fun w =>
    match m w with
    | (Normal _, w') => (Returned, w')
    | (Returned, w') => (Returned, w')
    | (Thrown e, w') => (Thrown e, w')
    | (Suspended, w') => (Suspended, w')
    end.

(** [try { body } catch (error) { handler error }]: only a throw is caught. *)
Definition try_catch {W A} (body : M W A) (handler : value -> M W A) : M W A :=
  fun w =>
    match body w with
    | (Thrown e, w') => handler e w'
    | other => other
    end.

(** The body of an [async] function: a [return] fulfils its promise just as
    running off the end does, a throw rejects it. *)
Definition async_function {W} (body : M W unit) : M W unit :=
  fun w =>
    match body w with
    | (Returned, w') => (Normal tt, w')
    | other => other
    end.

(** [v.key] as a statement. *)
Definition read {W} (v : value) (key : string) (msg : string) : M W value :=
  match get_named v key with
  | Some x => ret x
  | None => throw (type_error msg)
  end.

Declare Scope js_scope.
Delimit Scope js_scope with js.

Notation "x <- m ;; k" := (bind m (fun x => k))
  (at level 61, m at next level, right associativity) : js_scope.
Notation "m ;; k" := (bind m (fun _ => k))
  (at level 61, right associativity) : js_scope.

End Js.

(* ====================================================================== *)
(** ** The cost router: [router.post('/costs', async (req, res) => ...)] *)
(* ====================================================================== *)

Module CostRouter.
Import Js.
Local Open Scope js_scope.

Inductive provider : Type := Aws | Azure.

(** What awaiting [fetchCosts(body)] gives: the promise is fulfilled with a
    value, it is rejected (or the call throws before returning a promise),
    or it never settles. *)
Inductive outcome : Type :=
| Resolves (v : value)
| Rejects (e : value)
| NeverSettles.

(** The two collaborators, [require('../services/awsService')] and
    [require('../services/azureService')]; their code is outside the router. *)
Record services : Type := {
  awsService_fetchCosts : value -> outcome;
  azureService_fetchCosts : value -> outcome
}.

(** Express's [res]: the status code to use, and what was sent with which
    status once [res.json] has run. *)
Record response : Type := {
  statusCode : Z;
  sent : option (Z * value)
}.

Record world : Type := {
  res : response;
  calls : list (provider * value)
}.

(** [res] as Express hands it to the handler: status 200, nothing sent. *)
Definition fresh : world :=
  {| res := {| statusCode := 200; sent := None |}; calls := [] |}.

(** [res.status(code)] *)
Definition res_status (code : Z) : M world unit :=
  fun w =>
    (Normal tt,
     {| res := {| statusCode := code; sent := sent (res w) |};
        calls := calls w |}).

Definition headers_sent : value :=
  VObj [("name", VStr "Error");
        ("code", VStr "ERR_HTTP_HEADERS_SENT");
        ("message", VStr "Cannot set headers after they are sent to the client")].

(** [res.json(payload)]: send [payload] under the current status code; a
    second send on the same response throws. *)
Definition res_json (payload : value) : M world unit :=
  fun w =>
    match sent (res w) with
    | None =>
        (Normal tt,
         {| res := {| statusCode := statusCode (res w);
                      sent := Some (statusCode (res w), payload) |};
            calls := calls w |})
    | Some _ => (Thrown headers_sent, w)
    end.

Definition fetchCosts (S : services) (p : provider) : value -> outcome :=
  match p with
  | Aws => awsService_fetchCosts S
  | Azure => azureService_fetchCosts S
  end.

(** [await xService.fetchCosts(arg)]: the call is recorded with its argument. *)
Definition await_fetchCosts (S : services) (p : provider) (arg : value) : M world value :=
  fun w =>
    let w' := {| res := res w; calls := calls w ++ [(p, arg)] |} in
    match fetchCosts S p arg with
    | Resolves v => (Normal v, w')
    | Rejects e => (Thrown e, w')
    | NeverSettles => (Suspended, w')
    end.

Definition invalid_provider : value :=
  VObj [("success", VBool false); ("message", VStr "Invalid cloud provider.")].

Definition success_body (costs : value) : value :=
  VObj [("success", VBool true); ("costs", costs)].

Definition failure_body (message : value) : value :=
  VObj [("success", VBool false); ("message", message)].

(** The handler, statement by statement.  In
    [res.status(500).json({ ..., message: error.message })] the callee
    [res.status(500)] is evaluated before the argument [error.message]. *)
Definition costs_handler (S : services) (req_body : value) : M world unit :=
  async_function (
    cloudProvider <- read req_body "cloudProvider"
                       "Cannot destructure property 'cloudProvider' of 'req.body'" ;;
    try_catch (
      costs <- (if strict_eq_str cloudProvider "aws" then
                  await_fetchCosts S Aws req_body
                else if strict_eq_str cloudProvider "azure" then
                  await_fetchCosts S Azure req_body
                else
                  return_ (res_status 400 ;; res_json invalid_provider)) ;;
      res_json (success_body costs)
    ) (fun error =>
      res_status 500 ;;
      message <- read error "message" "Cannot read properties (reading 'message')" ;;
      res_json (failure_body message))
  ).

(** One request against a fresh response object. *)
Definition post_costs (S : services) (req_body : value) : completion unit * world :=
  costs_handler S req_body fresh.

Definition reply (S : services) (req_body : value) : option (Z * value) :=
  sent (res (snd (post_costs S req_body))).

Definition invoked (S : services) (req_body : value) : list (provider * value) :=
  calls (snd (post_costs S req_body)).

(** The string that selects a provider in [cloudProvider]. *)
Definition selector (p : provider) : string :=
  match p with
  | Aws => "aws"
  | Azure => "azure"
  end.

(** Sample data: a request for January 2024, an AWS collaborator that
    answers [{ total: 123.45 }] and an Azure collaborator that fails. *)
Definition january_request (cloudProvider : value) : value :=
  VObj [("cloudProvider", cloudProvider);
        ("startDate", VStr "2024-01-01");
        ("endDate", VStr "2024-01-31")].

Definition january_total : value :=
  VObj [("total", VNum (S754_finite false 8687021468732621 (-46)))].

Definition quota_error : value :=
  VObj [("name", VStr "Error"); ("message", VStr "Too many requests")].

Definition sample_services : services :=
  {| awsService_fetchCosts := fun _ => Resolves january_total;
     azureService_fetchCosts := fun _ => Rejects quota_error |}.

End CostRouter.

(* ====================================================================== *)
(** ** The metrics module: [backend/metrics.js] *)
(* ====================================================================== *)

Module Metrics.
Import Js.
Local Open Scope js_scope.

(** [{ timeout: ... }], in milliseconds. *)
Record DefaultMetricsConfig : Type := {
  timeout : Z
}.

(** [{ name, help, labelNames, buckets }]; bucket bounds in milliseconds. *)
Record HistogramConfig : Type := {
  name : string;
  help : string;
  labelNames : list string;
  buckets : list Z
}.

(** What the module asks of [prom-client]. *)
Inductive client_call : Type :=
| CollectDefaultMetrics (config : DefaultMetricsConfig)
| NewHistogram (config : HistogramConfig).

Inductive call_result (A : Type) : Type :=
| Returns (a : A)
| Raises (e : value).

Arguments Returns {A} a.
Arguments Raises {A} e.

(** [require('prom-client')], as far as the module uses it.  The library is
    not part of the repository: its registry [R] and its histogram objects
    [H] are left abstract, and each of the two entry points may return or
    raise, and may change the registry. *)
Record prom_client (R H : Type) : Type := {
  collectDefaultMetrics : DefaultMetricsConfig -> R -> call_result unit * R;
  Histogram : HistogramConfig -> R -> call_result H * R
}.

Arguments collectDefaultMetrics {R H} _ _ _.
Arguments Histogram {R H} _ _ _.

Section Module_body.

Variables R H : Type.
Variable client : prom_client R H.

Record world : Type := {
  registry : R;
  log : list client_call
}.

(** [module.exports = { client, httpRequestDurationMicroseconds }] *)
Record exports : Type := {
  exported_client : prom_client R H;
  httpRequestDurationMicroseconds : H
}.

(** A call into the library: it is logged, runs against the registry, and a
    raise becomes a throw of the calling statement. *)
Definition call {A} (what : client_call) (f : R -> call_result A * R) : M world A :=
  fun w =>
    let (r, reg) := f (registry w) in
    let w' := {| registry := reg; log := log w ++ [what] |} in
    match r with
    | Returns a => (Normal a, w')
    | Raises e => (Thrown e, w')
    end.

Definition default_metrics_config : DefaultMetricsConfig :=
  {| timeout := 5000 |}.

Definition http_request_duration_config : HistogramConfig :=
  {| name := "http_request_duration_ms";
     help := "Duration of HTTP requests in ms";
     labelNames := ["method"; "route"; "code"];
     buckets := [50; 100; 200; 300; 400; 500; 750; 1000; 2500; 5000; 10000] |}.

(** The top-level statements of the module, in order. *)
Definition metrics_js : M world exports :=
  call (CollectDefaultMetrics default_metrics_config)
       (collectDefaultMetrics client default_metrics_config) ;;
  histogram <- call (NewHistogram http_request_duration_config)
                    (Histogram client http_request_duration_config) ;;
  ret {| exported_client := client;
         httpRequestDurationMicroseconds := histogram |}.

(** Evaluating the module once, from registry [r]. *)
Definition load (r : R) : completion exports * world :=
  metrics_js {| registry := r; log := [] |}.

End Module_body.

Arguments registry {R}.
Arguments log {R}.
Arguments load {R H}.
Arguments metrics_js {R H}.
Arguments httpRequestDurationMicroseconds {R H}.
Arguments exported_client {R H}.

(** The configurations of the histograms constructed in a log. *)
Fixpoint histograms (l : list client_call) : list HistogramConfig :=
  match l with
  | [] => []
  | NewHistogram c :: rest => c :: histograms rest
  | CollectDefaultMetrics _ :: rest => histograms rest
  end.

(** The configurations of the default-metrics collections started in a log. *)
Fixpoint default_collections (l : list client_call) : list DefaultMetricsConfig :=
  match l with
  | [] => []
  | CollectDefaultMetrics c :: rest => c :: default_collections rest
  | NewHistogram _ :: rest => default_collections rest
  end.

(** A client that accepts every call: the registry counts the metrics it was
    given, a histogram object is its configuration. *)
Definition accepting_client : prom_client nat HistogramConfig :=
  {| collectDefaultMetrics := fun _ r => (Returns tt, S r);
     Histogram := fun c r => (Returns c, S r) |}.

(** What evaluating the module against [accepting_client] leaves behind. *)
Definition accepted_exports : exports nat HistogramConfig :=
  {| exported_client := accepting_client;
     httpRequestDurationMicroseconds := http_request_duration_config |}.

Definition accepted_world : world nat :=
  {| registry := 2%nat;
     log := [ CollectDefaultMetrics default_metrics_config;
              NewHistogram http_request_duration_config ] |}.

End Metrics.

(* ====================================================================== *)
(** ** The deployment script (Bash, [set -e]) *)
(* ====================================================================== *)

Module Deploy.

(** A command of the script: the line it starts on and its command words.
    No line holds the same command twice, so this names an occurrence. *)
Definition command : Type := (nat * string)%type.

Definition command_eqb (a b : command) : bool :=
  Nat.eqb (fst a) (fst b) && String.eqb (snd a) (snd b).

(** The machine and the AWS account the script runs against: whether a
    command, when it runs, exits with status zero. *)
Definition host : Type := command -> bool.

Record shell : Type := {
  errexit : bool;          (* the [-e] option *)
  ran : list command       (* commands executed so far, oldest first *)
}.

Inductive flow (A : Type) : Type :=
| Continue (a : A)
| Exit.

Arguments Continue {A} a.
Arguments Exit {A}.

Definition Sh (A : Type) : Type := host -> shell -> flow A * shell.

Definition ret {A} (a : A) : Sh A := fun _ s => (Continue a, s).

Definition bind {A B} (m : Sh A) (k : A -> Sh B) : Sh B :=
  fun h s =>
    match m h s with
    | (Continue a, s') => k a h s'
    | (Exit, s') => (Exit, s')
    end.

Declare Scope sh_scope.
Delimit Scope sh_scope with sh.
Local Open Scope sh_scope.

Notation "x <- m ;; k" := (bind m (fun x => k))
  (at level 61, m at next level, right associativity) : sh_scope.
Notation "m ;; k" := (bind m (fun _ => k))
  (at level 61, right associativity) : sh_scope.

(** [set -e] *)
Definition set_e : Sh unit :=
  fun _ s => (Continue tt, {| errexit := true; ran := ran s |}).

(** Run a command and yield whether its exit status is zero. *)
Definition status (c : command) : Sh bool :=
  fun h s => (Continue (h c), {| errexit := errexit s; ran := ran s ++ [c] |}).

(** A command, or an assignment [VAR=$(...)], standing as a statement of its
    own: under [-e] a non-zero status ends the script there. *)
Definition stmt (m : Sh bool) : Sh unit :=
  fun h s =>
    match m h s with
    | (Continue true, s') => (Continue tt, s')
    | (Continue false, s') => if errexit s' then (Exit, s') else (Continue tt, s')
    | (Exit, s') => (Exit, s')
    end.

Definition simple (c : command) : Sh unit := stmt (status c).

(** [a | b] without [pipefail]: both sides run, the status is that of [b]. *)
Definition pipe (a b : Sh bool) : Sh bool := a ;; b.

(** [a && b] *)
Definition and_list (a b : Sh bool) : Sh bool :=
  ok <- a ;; if ok then b else ret false.

(** [! a] *)
Definition not_ (a : Sh bool) : Sh bool :=
  ok <- a ;; ret (negb ok).

(** [if cond; then yes; else no; fi]: the status of [cond] picks the branch
    and is never checked against [-e]. *)
Definition if_ (cond : Sh bool) (yes no : Sh unit) : Sh unit :=
  ok <- cond ;; if ok then yes else no.

(** A command substitution inside a command's arguments, ["$(a)"]: it runs
    first and its status is dropped. *)
Definition with_argument (a : command) (m : Sh bool) : Sh bool :=
  status a ;; m.

(** The script.  Plain assignments of literals ([AWS_REGION="us-east-1"] and
    the like) run no command and are left out. *)
Definition deploy_lambdas : Sh unit :=
  set_e ;;
  (* SCRIPT_DIR=$(cd -- "$(dirname -- "${BASH_SOURCE[0]}")" &> /dev/null && pwd) *)
  stmt (and_list (with_argument (36%nat, "dirname") (status (36%nat, "cd")))
                 (status (36%nat, "pwd"))) ;;
  simple (39%nat, "dirname") ;;
  simple (40%nat, "cd") ;;
  simple (69%nat, "echo") ;;
  (* 1. S3 bucket *)
  simple (72%nat, "echo") ;;
  if_ (pipe (status (73%nat, "aws s3 ls")) (status (73%nat, "grep")))
    (simple (74%nat, "aws s3 mb") ;;
     simple (75%nat, "echo"))
    (simple (77%nat, "echo")) ;;
  (* 2. IAM role and policies *)
  simple (81%nat, "echo") ;;
  if_ (not_ (status (126%nat, "aws iam get-role")))
    (simple (127%nat, "aws iam create-role") ;;
     simple (128%nat, "echo"))
    (simple (130%nat, "echo")) ;;
  if_ (not_ (pipe (status (135%nat, "aws iam list-attached-role-policies"))
                  (status (135%nat, "grep"))))
    (simple (136%nat, "echo") ;;
     simple (137%nat, "aws iam attach-role-policy"))
    (simple (139%nat, "echo")) ;;
  simple (144%nat, "aws sts get-caller-identity") ;;
  if_ (not_ (status (147%nat, "aws iam get-policy")))
    (simple (148%nat, "echo") ;;
     simple (149%nat, "aws iam create-policy"))
    (simple (151%nat, "echo")) ;;
  if_ (not_ (pipe (status (154%nat, "aws iam list-attached-role-policies"))
                  (status (154%nat, "grep"))))
    (simple (155%nat, "echo") ;;
     simple (156%nat, "aws iam attach-role-policy"))
    (simple (158%nat, "echo")) ;;
  simple (161%nat, "echo") ;;
  simple (164%nat, "aws iam get-role") ;;
  simple (165%nat, "echo") ;;
  simple (168%nat, "echo") ;;
  simple (169%nat, "sleep") ;;
  (* 3. package and upload the fetcher *)
  simple (172%nat, "echo") ;;
  simple (173%nat, "zip") ;;
  simple (174%nat, "aws s3 cp") ;;
  simple (175%nat, "rm") ;;
  simple (176%nat, "echo") ;;
  (* 4. create or update the fetcher *)
  simple (179%nat, "echo") ;;
  if_ (status (180%nat, "aws lambda get-function"))
    (simple (181%nat, "echo") ;;
     simple (182%nat, "aws lambda update-function-code"))
    (simple (184%nat, "echo") ;;
     simple (185%nat, "aws lambda create-function")) ;;
  (* 5. package and upload the shutdown function *)
  simple (198%nat, "echo") ;;
  simple (199%nat, "zip") ;;
  simple (200%nat, "aws s3 cp") ;;
  simple (201%nat, "rm") ;;
  simple (202%nat, "echo") ;;
  (* 6. create or update the shutdown function *)
  simple (205%nat, "echo") ;;
  if_ (status (206%nat, "aws lambda get-function"))
    (simple (207%nat, "echo") ;;
     simple (208%nat, "aws lambda update-function-code"))
    (simple (210%nat, "echo") ;;
     simple (211%nat, "aws lambda create-function")) ;;
  simple (223%nat, "echo") ;;
  simple (224%nat, "echo") ;;
  simple (225%nat, "echo") ;;
  simple (226%nat, "echo") ;;
  simple (227%nat, "echo") ;;
  simple (228%nat, "echo") ;;
  simple (229%nat, "echo") ;;
  simple (230%nat, "echo") ;;
  simple (231%nat, "echo") ;;
  simple (232%nat, "echo").

(** The commands whose status the script consumes itself: the conditions of
    its [if]s, both sides of the pipelines there, and the substitution in
    the argument of [cd] on line 36. *)
Definition probes : list command :=
  [ (36%nat, "dirname");
    (73%nat, "aws s3 ls"); (73%nat, "grep");
    (126%nat, "aws iam get-role");
    (135%nat, "aws iam list-attached-role-policies"); (135%nat, "grep");
    (147%nat, "aws iam get-policy");
    (154%nat, "aws iam list-attached-role-policies"); (154%nat, "grep");
    (180%nat, "aws lambda get-function");
    (206%nat, "aws lambda get-function") ].

Definition is_probe (c : command) : bool :=
  existsb (command_eqb c) probes.

(** One run of the script from a new shell. *)
Definition run (h : host) : flow unit * shell :=
  deploy_lambdas h {| errexit := false; ran := [] |}.

Definition aborted (h : host) : bool :=
  match fst (run h) with
  | Exit => true
  | Continue _ => false
  end.

Definition executed (h : host) : list command := ran (snd (run h)).

(** A host on which every command succeeds but [c]. *)
Definition only_fails (c : command) : host := fun x => negb (command_eqb x c).

(** Commands that cannot have ended a run: they succeeded or are probes. *)
Definition clean (h : host) (l : list command) : Prop :=
  Forall (fun c => h c = true \/ In c probes) l.

(** The last command of [l] failed and nothing before it could have ended
    the run. *)
Definition stopped (h : host) (l : list command) : Prop :=
  exists before c, l = before ++ [c] /\ clean h before /\ h c = false.

(** A condition: it runs probes only, yields a status and never exits. *)
Definition probing (m : Sh bool) : Prop :=
  forall h s, exists ok more,
    m h s = (Continue ok, {| errexit := errexit s; ran := ran s ++ more |}) /\
    Forall (fun c => In c probes) more.

(** A command list whose status goes to the [-e] check: when the status is
    non-zero, the command that failed is the last one that ran. *)
Definition reporting (m : Sh bool) : Prop :=
  forall h s, exists ok more,
    m h s = (Continue ok, {| errexit := errexit s; ran := ran s ++ more |}) /\
    if ok then clean h more else stopped h more.

(** A statement that, under [-e], either continues with nothing failed
    outside the probes, or exits right after the command that failed. *)
Definition fail_fast (m : Sh unit) : Prop :=
  forall h s, errexit s = true ->
    exists r more,
      m h s = (r, {| errexit := true; ran := ran s ++ more |}) /\
      match r with
      | Continue _ => clean h more
      | Exit => stopped h more
      end.

End Deploy.

(* ====================================================================== *)
(** ** The deployment script as a planned sequence of commands *)
(* ====================================================================== *)

Module DeployPlan.
Import Deploy.

(** A command that cannot end the run on host [h]. *)
Definition harmless (h : host) (c : command) : bool := h c || is_probe c.

Definition passes (h : host) (l : list command) : bool := forallb (harmless h) l.

(** [l] up to and including its first command that fails outside the probes. *)
Fixpoint cut (h : host) (l : list command) : list command :=
  match l with
  | [] => []
  | c :: rest => if harmless h c then c :: cut h rest else [c]
  end.

(** The commands the script is set to run when nothing stops it, given the
    statuses of the seven commands its [if]s branch on: the statements in
    order, each [if] replaced by its condition followed by the branch that
    the condition's status selects. *)
Definition plan_of
    (grep_73 get_role_126 grep_135 get_policy_147 grep_154
     get_function_180 get_function_206 : bool) : list command :=
  [ (36%nat, "dirname"); (36%nat, "cd"); (36%nat, "pwd");
    (39%nat, "dirname"); (40%nat, "cd"); (69%nat, "echo"); (72%nat, "echo");
    (73%nat, "aws s3 ls"); (73%nat, "grep") ] ++
  (if grep_73
   then [ (74%nat, "aws s3 mb"); (75%nat, "echo") ]
   else [ (77%nat, "echo") ]) ++
  [ (81%nat, "echo"); (126%nat, "aws iam get-role") ] ++
  (if negb get_role_126
   then [ (127%nat, "aws iam create-role"); (128%nat, "echo") ]
   else [ (130%nat, "echo") ]) ++
  [ (135%nat, "aws iam list-attached-role-policies"); (135%nat, "grep") ] ++
  (if negb grep_135
   then [ (136%nat, "echo"); (137%nat, "aws iam attach-role-policy") ]
   else [ (139%nat, "echo") ]) ++
  [ (144%nat, "aws sts get-caller-identity"); (147%nat, "aws iam get-policy") ] ++
  (if negb get_policy_147
   then [ (148%nat, "echo"); (149%nat, "aws iam create-policy") ]
   else [ (151%nat, "echo") ]) ++
  [ (154%nat, "aws iam list-attached-role-policies"); (154%nat, "grep") ] ++
  (if negb grep_154
   then [ (155%nat, "echo"); (156%nat, "aws iam attach-role-policy") ]
   else [ (158%nat, "echo") ]) ++
  [ (161%nat, "echo"); (164%nat, "aws iam get-role"); (165%nat, "echo");
    (168%nat, "echo"); (169%nat, "sleep");
    (172%nat, "echo"); (173%nat, "zip"); (174%nat, "aws s3 cp"); (175%nat, "rm");
    (176%nat, "echo"); (179%nat, "echo"); (180%nat, "aws lambda get-function") ] ++
  (if get_function_180
   then [ (181%nat, "echo"); (182%nat, "aws lambda update-function-code") ]
   else [ (184%nat, "echo"); (185%nat, "aws lambda create-function") ]) ++
  [ (198%nat, "echo"); (199%nat, "zip"); (200%nat, "aws s3 cp"); (201%nat, "rm");
    (202%nat, "echo"); (205%nat, "echo"); (206%nat, "aws lambda get-function") ] ++
  (if get_function_206
   then [ (207%nat, "echo"); (208%nat, "aws lambda update-function-code") ]
   else [ (210%nat, "echo"); (211%nat, "aws lambda create-function") ]) ++
  [ (223%nat, "echo"); (224%nat, "echo"); (225%nat, "echo"); (226%nat, "echo");
    (227%nat, "echo"); (228%nat, "echo"); (229%nat, "echo"); (230%nat, "echo");
    (231%nat, "echo"); (232%nat, "echo") ].

(** The plan on host [h]. *)
Definition plan (h : host) : list command :=
  plan_of (h (73%nat, "grep"))
          (h (126%nat, "aws iam get-role"))
          (h (135%nat, "grep"))
          (h (147%nat, "aws iam get-policy"))
          (h (154%nat, "grep"))
          (h (180%nat, "aws lambda get-function"))
          (h (206%nat, "aws lambda get-function")).

(** A statement that, under [-e], runs the commands of [p] up to the first
    failure outside the probes, and exits exactly when there is one. *)
Definition follows (m : Sh unit) (p : host -> list command) : Prop :=
  forall h s, errexit s = true ->
    m h s = (if passes h (p h) then Continue tt else Exit,
             {| errexit := true; ran := ran s ++ cut h (p h) |}).

(** A condition that runs the probes [p] and yields the status [b]. *)
Definition tests (m : Sh bool) (p : host -> list command) (b : host -> bool) : Prop :=
  forall h s,
    m h s = (Continue (b h), {| errexit := errexit s; ran := ran s ++ p h |}) /\
    forallb is_probe (p h) = true.

(** A command list that stops at its first failure outside the probes and
    yields whether there was none. *)
Definition reports (m : Sh bool) (p : host -> list command) : Prop :=
  forall h s,
    m h s = (Continue (passes h (p h)),
             {| errexit := errexit s; ran := ran s ++ cut h (p h) |}).

(** [c] is in [l]. *)
Definition mem (c : command) (l : list command) : bool :=
  existsb (command_eqb c) l.

(** [x] occurs in [l] before the first occurrence of [c], if any. *)
Fixpoint before (x c : command) (l : list command) : bool :=
  match l with
  | [] => false
  | y :: rest =>
      if command_eqb y c then false
      else command_eqb y x || before x c rest
  end.

(** The host [h] with the exit status of [c] replaced. *)
Definition override (h : host) (c : command) (ok : bool) : host :=
  fun x => if command_eqb x c then ok else h x.

(** The commands whose status nothing reads: the left sides of the
    pipelines and the substitution in the argument of [cd]. *)
Definition masked : list command :=
  [ (36%nat, "dirname");
    (73%nat, "aws s3 ls");
    (135%nat, "aws iam list-attached-role-policies");
    (154%nat, "aws iam list-attached-role-policies") ].

End DeployPlan.

(* ====================================================================== *)
(** ** Sample collaborators, responses and clients *)
(* ====================================================================== *)

Module Samples.
Import Js CostRouter Metrics.

(** An AWS collaborator whose promise never settles. *)
Definition stalled_services : services :=
  {| awsService_fetchCosts := fun _ => NeverSettles;
     azureService_fetchCosts := fun _ => Resolves VNull |}.

(** An AWS collaborator that rejects with [null]. *)
Definition null_rejecting_services : services :=
  {| awsService_fetchCosts := fun _ => Rejects VNull;
     azureService_fetchCosts := fun _ => NeverSettles |}.

(** An AWS collaborator that throws a string. *)
Definition string_throwing_services : services :=
  {| awsService_fetchCosts := fun _ => Rejects (VStr "Throttled");
     azureService_fetchCosts := fun _ => NeverSettles |}.

(** [sample_services] with another Azure collaborator. *)
Definition other_azure_services : services :=
  {| awsService_fetchCosts := awsService_fetchCosts sample_services;
     azureService_fetchCosts := fun _ => Resolves VNull |}.


(** A client that serves each entry point once and raises after that; its
    registry counts the calls it served. *)
Definition single_use_client : prom_client nat HistogramConfig :=
  {| collectDefaultMetrics := fun _ r =>
       match r with
       | O => (Returns tt, 1%nat)
       | _ => (Raises (type_error "default metrics are already collected"), r)
       end;
     Histogram := fun c r =>
       match r with
       | 1%nat => (Returns c, 2%nat)
       | _ => (Raises (type_error "the histogram is already registered"), r)
       end |}.

(** A client whose histogram constructor raises. *)
Definition refusing_client : prom_client nat HistogramConfig :=
  {| collectDefaultMetrics := fun _ r => (Returns tt, S r);
     Histogram := fun _ r => (Raises (type_error "invalid histogram"), r) |}.

End Samples.

(* ====================================================================== *)
(** ** The response body as sent: [res.json] serialises with [JSON.stringify] *)
(* ====================================================================== *)

Module Wire.
Import Js CostRouter.

(** What a JSON text denotes: there is no [undefined] in it. *)
#[warnings="-register-all"]
Inductive json : Type :=
| JNull
| JBool (b : bool)
| JNum (x : spec_float)
| JStr (s : string)
| JArr (items : list json)
| JObj (members : list (string * json)).

(** A number as [JSON.stringify] writes it: [NaN] and the infinities become
    [null], negative zero becomes [0]. *)
Definition stringify_number (x : spec_float) : json :=
  match x with
  | S754_zero _ => JNum (S754_zero false)
  | S754_infinity _ => JNull
  | S754_nan => JNull
  | S754_finite _ _ _ => JNum x
  end.

(** [JSON.stringify(v)], read back: [None] when the result is [undefined].
    A property whose value is [undefined] is left out of its object; an
    [undefined] array element is written as [null]. *)
Fixpoint stringify (v : value) : option json :=
  match v with
  | VUndefined => None
  | VNull => Some JNull
  | VBool b => Some (JBool b)
  | VNum x => Some (stringify_number x)
  | VStr s => Some (JStr s)
  | VArr items =>
      Some (JArr
        ((fix elements (l : list value) : list json :=
            match l with
            | [] => []
            | x :: rest =>
                match stringify x with
                | Some j => j :: elements rest
                | None => JNull :: elements rest
                end
            end) items))
  | VObj props =>
      Some (JObj
        ((fix members (l : list (string * value)) : list (string * json) :=
            match l with
            | [] => []
            | (k, x) :: rest =>
                match stringify x with
                | Some j => (k, j) :: members rest
                | None => members rest
                end
            end) props))
  end.

Fixpoint member (key : string) (members : list (string * json)) : option json :=
  match members with
  | [] => None
  | (k, j) :: rest => if String.eqb k key then Some j else member key rest
  end.

(** The member [key] of a JSON object, if it is one and has it. *)
Definition json_field (key : string) (j : option json) : option json :=
  match j with
  | Some (JObj members) => member key members
  | _ => None
  end.

(** The response a client receives: the status and the serialised body. *)
Definition response_received (S : services) (req_body : value)
  : option (Z * option json) :=
  match reply S req_body with
  | Some (code, payload) => Some (code, stringify payload)
  | None => None
  end.

(** An AWS collaborator that resolves with [undefined], as an [async]
    function without a [return] does. *)
Definition undefined_resolving_services : services :=
  {| awsService_fetchCosts := fun _ => Resolves VUndefined;
     azureService_fetchCosts := fun _ => Rejects (VStr "Throttled") |}.

End Wire.

(* ====================================================================== *)
(** ** Properties of the cost router *)
(* ====================================================================== *)

Section Cost_router_facts.
Import Js CostRouter.

Lemma strict_eq_str_true (v : value) (lit : string) :
  strict_eq_str v lit = true <-> v = VStr lit.
Proof.
  destruct v; simpl; try (split; [discriminate | intro E; discriminate E]).
  rewrite String.eqb_eq. split; [intros -> | intros [= ->]]; reflexivity.
Qed.

Lemma strict_eq_str_false (v : value) (lit : string) :
  v <> VStr lit -> strict_eq_str v lit = false.
Proof.
  intro N. destruct (strict_eq_str v lit) eqn:E; [|reflexivity].
  apply strict_eq_str_true in E. contradiction.
Qed.

Variable S : services.
Variable body : value.

(** The run of the handler once the provider has been selected. *)
Lemma post_costs_selected (p : provider) :
  get_named body "cloudProvider" = Some (VStr (selector p)) ->
  post_costs S body =
    match fetchCosts S p body with
    | Resolves v =>
        (Normal tt,
         {| res := {| statusCode := 200; sent := Some (200, success_body v) |};
            calls := [(p, body)] |})
    | Rejects e =>
        match get_named e "message" with
        | Some m =>
            (Normal tt,
             {| res := {| statusCode := 500; sent := Some (500, failure_body m) |};
                calls := [(p, body)] |})
        | None =>
            (Thrown (type_error "Cannot read properties (reading 'message')"),
             {| res := {| statusCode := 500; sent := None |};
                calls := [(p, body)] |})
        end
    | NeverSettles =>
        (Suspended,
         {| res := {| statusCode := 200; sent := None |}; calls := [(p, body)] |})
    end.
Proof.
  intro Hsel.
  unfold post_costs, costs_handler, async_function, read, bind at 1.
  rewrite Hsel.
  destruct p; cbn;
    unfold try_catch, bind, await_fetchCosts; cbn;
    match goal with
    | |- context [?f S body] => destruct (f S body) as [v | e |]
    end; cbn; try reflexivity;
    unfold read; destruct (get_named e "message"); reflexivity.
Qed.

(** The run of the handler when the discriminator names no provider. *)
Lemma post_costs_unselected (v : value) :
  get_named body "cloudProvider" = Some v ->
  v <> VStr "aws" -> v <> VStr "azure" ->
  post_costs S body =
    (Normal tt,
     {| res := {| statusCode := 400; sent := Some (400, invalid_provider) |};
        calls := [] |}).
Proof.
  intros Hget Haws Hazure.
  unfold post_costs, costs_handler, async_function, read, bind at 1.
  rewrite Hget. cbn.
  unfold try_catch, bind.
  rewrite (strict_eq_str_false _ _ Haws), (strict_eq_str_false _ _ Hazure).
  reflexivity.
Qed.

(** The run of the handler when the body cannot be destructured. *)
Lemma post_costs_nullish :
  is_nullish body = true ->
  post_costs S body =
    (Thrown (type_error "Cannot destructure property 'cloudProvider' of 'req.body'"),
     fresh).
Proof.
  intro Hn. destruct body; try discriminate Hn; reflexivity.
Qed.

End Cost_router_facts.

Import Js CostRouter.

(** C1.  When the body's [cloudProvider] is the string ["aws"] the handler
    invokes the AWS collaborator, once, and never the Azure one; when it is
    ["azure"] it invokes the Azure collaborator, once, and never the AWS one. *)
Theorem dispatch_is_exclusive (S : services) (body : value) (p : provider) :
  get_named body "cloudProvider" = Some (VStr (selector p)) ->
  map fst (invoked S body) = [p] /\
  (forall q arg, In (q, arg) (invoked S body) -> q = p).
Proof.
  intro Hsel. unfold invoked. rewrite (post_costs_selected S body p Hsel).
  assert (E : map fst [(p, body)] = [p] /\
              (forall q arg, In (q, arg) [(p, body)] -> q = p)).
  { split; [reflexivity|]. intros q arg [[= <- _] | []]. reflexivity. }
  destruct (fetchCosts S p body) as [v | e |];
    [ | destruct (get_named e "message") | ]; exact E.
Qed.

Lemma dispatch_is_exclusive_witness :
  (get_named (january_request (VStr "aws")) "cloudProvider" = Some (VStr (selector Aws)) /\
   map fst (invoked sample_services (january_request (VStr "aws"))) = [Aws]) /\
  (get_named (january_request (VStr "azure")) "cloudProvider" = Some (VStr (selector Azure)) /\
   map fst (invoked sample_services (january_request (VStr "azure"))) = [Azure]).
Proof.
  split; (split; [reflexivity|]).
  - apply (dispatch_is_exclusive sample_services (january_request (VStr "aws")) Aws).
    reflexivity.
  - apply (dispatch_is_exclusive sample_services (january_request (VStr "azure")) Azure).
    reflexivity.
Defined.

(** C2.  When the body can be destructured and its [cloudProvider] is absent
    ([undefined]) or any value other than the strings ["aws"] and ["azure"],
    the handler answers status 400 with exactly
    [{success: false, message: "Invalid cloud provider."}] and invokes no
    collaborator. *)
Theorem invalid_provider_is_400 (S : services) (body v : value) :
  get_named body "cloudProvider" = Some v ->
  v <> VStr "aws" -> v <> VStr "azure" ->
  reply S body =
    Some (400, VObj [("success", VBool false);
                     ("message", VStr "Invalid cloud provider.")]) /\
  invoked S body = [] /\
  fst (post_costs S body) = Normal tt.
Proof.
  intros Hget Haws Hazure. unfold reply, invoked.
  rewrite (post_costs_unselected S body v Hget Haws Hazure).
  repeat split.
Qed.

Lemma invalid_provider_is_400_witness :
  (get_named (january_request (VStr "gcp")) "cloudProvider" = Some (VStr "gcp") /\
   VStr "gcp" <> VStr "aws" /\ VStr "gcp" <> VStr "azure") /\
  reply sample_services (january_request (VStr "gcp")) =
    Some (400, VObj [("success", VBool false);
                     ("message", VStr "Invalid cloud provider.")]).
Proof.
  assert (Hget : get_named (january_request (VStr "gcp")) "cloudProvider"
                 = Some (VStr "gcp")) by reflexivity.
  assert (Haws : VStr "gcp" <> VStr "aws") by discriminate.
  assert (Hazure : VStr "gcp" <> VStr "azure") by discriminate.
  split; [repeat split; assumption|].
  exact (proj1 (invalid_provider_is_400 sample_services _ _ Hget Haws Hazure)).
Defined.



(** C4.  With a valid provider, when the invoked collaborator rejects with an
    error whose [message] is [M] the handler answers status 500 with exactly
    [{success: false, message: M}]; the collaborator was called once (no
    retry) and the status does not depend on the error. *)
Theorem rejected_is_500 (S : services) (body : value) (p : provider) (e M : value) :
  get_named body "cloudProvider" = Some (VStr (selector p)) ->
  fetchCosts S p body = Rejects e ->
  get_named e "message" = Some M ->
  reply S body = Some (500, VObj [("success", VBool false); ("message", M)]) /\
  invoked S body = [(p, body)] /\
  fst (post_costs S body) = Normal tt.
Proof.
  intros Hsel Hrej Hmsg. unfold reply, invoked.
  rewrite (post_costs_selected S body p Hsel), Hrej, Hmsg. repeat split.
Qed.

Lemma rejected_is_500_witness :
  (get_named (january_request (VStr "azure")) "cloudProvider" = Some (VStr (selector Azure)) /\
   fetchCosts sample_services Azure (january_request (VStr "azure")) = Rejects quota_error /\
   get_named quota_error "message" = Some (VStr "Too many requests")) /\
  reply sample_services (january_request (VStr "azure")) =
    Some (500, VObj [("success", VBool false); ("message", VStr "Too many requests")]).
Proof.
  split; [repeat split|].
  exact (proj1 (rejected_is_500 sample_services (january_request (VStr "azure")) Azure
                  quota_error (VStr "Too many requests") eq_refl eq_refl eq_refl)).
Defined.

(** C5.  With [cloudProvider] ["aws"] or ["azure"], the argument of the one
    collaborator call is the request body itself, whatever else it holds:
    the discriminator stays in it and nothing is checked, added or removed. *)
Theorem body_passed_unmodified (S : services) (body : value) (p : provider) :
  get_named body "cloudProvider" = Some (VStr (selector p)) ->
  invoked S body = [(p, body)] /\
  get_named (snd (hd (p, VUndefined) (invoked S body))) "cloudProvider"
    = Some (VStr (selector p)).
Proof.
  intro Hsel. unfold invoked. rewrite (post_costs_selected S body p Hsel).
  destruct (fetchCosts S p body) as [v | e |];
    [ | destruct (get_named e "message") | ]; (split; [reflexivity | exact Hsel]).
Qed.

Lemma body_passed_unmodified_witness :
  get_named (january_request (VStr "azure")) "cloudProvider" = Some (VStr (selector Azure)) /\
  invoked sample_services (january_request (VStr "azure")) =
    [(Azure, january_request (VStr "azure"))].
Proof.
  split; [reflexivity|].
  exact (proj1 (body_passed_unmodified sample_services (january_request (VStr "azure"))
                  Azure eq_refl)).
Defined.

(** Every run of the handler is one of the three runs described above. *)
Lemma post_costs_cases (S : services) (body : value) :
  (is_nullish body = true) \/
  (exists p, get_named body "cloudProvider" = Some (VStr (selector p))) \/
  (exists v, get_named body "cloudProvider" = Some v /\
             v <> VStr "aws" /\ v <> VStr "azure").
Proof.
  destruct (get_named body "cloudProvider") as [v|] eqn:Hget.
  - right.
    destruct (strict_eq_str v "aws") eqn:Haws.
    { apply strict_eq_str_true in Haws. subst v. left. exists Aws. reflexivity. }
    destruct (strict_eq_str v "azure") eqn:Hazure.
    { apply strict_eq_str_true in Hazure. subst v. left. exists Azure. reflexivity. }
    right. exists v. repeat split.
    + intros ->. discriminate Haws.
    + intros ->. discriminate Hazure.
  - left. destruct body; try discriminate Hget; try reflexivity.
    cbn in Hget. destruct (own_lookup "cloudProvider" props); discriminate Hget.
Qed.

(** C9, as claimed, fails: a body that is not an object need not make the
    handler throw.  A string body (as a text body parser yields) is
    destructured to [undefined], and the handler answers 400. *)
Lemma string_body_is_answered :
  is_object (VStr "aws") = false /\
  fst (post_costs sample_services (VStr "aws")) = Normal tt /\
  reply sample_services (VStr "aws") = Some (400, invalid_provider).
Proof. repeat split. Qed.

(** C9, amended.  The destructuring runs before [try], so a body that is
    [undefined] or [null] makes the handler throw a [TypeError] that nothing
    catches: no status is set, nothing is sent, no collaborator is invoked.
    Any other body that is not an object (a boolean, a number, a string) is
    destructured to [undefined] and answered with the 400 response. *)
Theorem non_object_body (S : services) (body : value) :
  is_object body = false ->
  post_costs S body =
    if is_nullish body then
      (Thrown (type_error "Cannot destructure property 'cloudProvider' of 'req.body'"),
       fresh)
    else
      (Normal tt,
       {| res := {| statusCode := 400; sent := Some (400, invalid_provider) |};
          calls := [] |}).
Proof.
  intro Hobj. destruct body; try discriminate Hobj; reflexivity.
Qed.

Lemma non_object_body_witness :
  is_object VUndefined = false /\
  post_costs sample_services VUndefined =
    (Thrown (type_error "Cannot destructure property 'cloudProvider' of 'req.body'"),
     fresh) /\
  reply sample_services VUndefined = None /\
  invoked sample_services VUndefined = [].
Proof.
  split; [reflexivity|].
  pose proof (non_object_body sample_services VUndefined eq_refl) as E.
  cbn [is_nullish] in E. unfold reply, invoked. rewrite E. repeat split.
Defined.

(** [JSON.stringify] yields [undefined] for [undefined] only. *)
Lemma stringify_undefined (v : value) :
  Wire.stringify v = None <-> v = VUndefined.
Proof.
  destruct v; cbn; split; intro E; try discriminate E; reflexivity.
Qed.

(** The serialised success payload: [costs] is a member unless it is
    [undefined]. *)
Lemma stringify_success_body (V : value) :
  Wire.stringify (success_body V) =
    Some (Wire.JObj (("success", Wire.JBool true) ::
                     match Wire.stringify V with
                     | Some j => [("costs", j)]
                     | None => []
                     end)).
Proof. cbn. destruct (Wire.stringify V); reflexivity. Qed.

(** The serialised failure payload: [message] is a member unless it is
    [undefined]. *)
Lemma stringify_failure_body (M : value) :
  Wire.stringify (failure_body M) =
    Some (Wire.JObj (("success", Wire.JBool false) ::
                     match Wire.stringify M with
                     | Some j => [("message", j)]
                     | None => []
                     end)).
Proof. cbn. destruct (Wire.stringify M); reflexivity. Qed.

(** C10, as claimed, fails on the response a client receives.  When the
    collaborator resolves with [undefined] the body of the 200 response is
    [{"success":true}], with no [costs]; when it rejects with a value that
    has no [message] the body of the 500 response is [{"success":false}],
    with no [message]. *)
Lemma undefined_is_dropped_from_the_body :
  (Wire.response_received Wire.undefined_resolving_services (january_request (VStr "aws"))
     = Some (200, Some (Wire.JObj [("success", Wire.JBool true)])) /\
   Wire.json_field "costs"
     (Wire.stringify (success_body VUndefined)) = None) /\
  (Wire.response_received Wire.undefined_resolving_services (january_request (VStr "azure"))
     = Some (500, Some (Wire.JObj [("success", Wire.JBool false)])) /\
   Wire.json_field "message"
     (Wire.stringify (failure_body VUndefined)) = None).
Proof. repeat split. Qed.

(** C10, amended.  Whatever the handler sends is serialised to a JSON object
    with a boolean [success], which is [true] exactly when the status is
    200; the only other statuses are 400 and 500.  The object handed to
    [res.json] has a [costs] property exactly when the status is 200, and a
    [message] property and no [costs] otherwise.  In the body received, a
    200 response has no [message] and has [costs] unless the value handed
    over is [undefined]; a 400 response has the invalid-provider [message]
    and no [costs]; a 500 response has no [costs] and has [message] unless
    the value handed over is [undefined]. *)
Theorem response_shape (S : services) (body : value) (code : Z) (payload : value) :
  reply S body = Some (code, payload) ->
  Wire.response_received S body = Some (code, Wire.stringify payload) /\
  exists flag : bool,
    field "success" payload = Some (VBool flag) /\
    Wire.json_field "success" (Wire.stringify payload) = Some (Wire.JBool flag) /\
    (flag = true <-> code = 200) /\
    (code = 200 \/ code = 400 \/ code = 500) /\
    (code = 200 <-> has_field "costs" payload = true) /\
    (code <> 200 ->
       has_field "message" payload = true /\ has_field "costs" payload = false) /\
    (code = 200 ->
       Wire.json_field "message" (Wire.stringify payload) = None /\
       (Wire.json_field "costs" (Wire.stringify payload) = None <->
        field "costs" payload = Some VUndefined)) /\
    (code = 400 ->
       Wire.json_field "costs" (Wire.stringify payload) = None /\
       Wire.json_field "message" (Wire.stringify payload) =
         Some (Wire.JStr "Invalid cloud provider.")) /\
    (code = 500 ->
       Wire.json_field "costs" (Wire.stringify payload) = None /\
       (Wire.json_field "message" (Wire.stringify payload) = None <->
        field "message" payload = Some VUndefined)).
Proof.
  intro Hreply. split.
  { unfold Wire.response_received. rewrite Hreply. reflexivity. }
  revert Hreply. unfold reply.
  destruct (post_costs_cases S body) as [Hn | [[p Hsel] | [v [Hget [Haws Hazure]]]]].
  - rewrite (post_costs_nullish S body Hn). discriminate.
  - rewrite (post_costs_selected S body p Hsel).
    destruct (fetchCosts S p body) as [v | e |];
      [ | destruct (get_named e "message") as [m|] | ]; cbn [snd res sent];
      try discriminate; intros [= <- <-].
    + exists true. rewrite stringify_success_body.
      repeat split; try reflexivity; try discriminate; try (intros; congruence).
      * left. reflexivity.
      * cbn. destruct (Wire.stringify v); reflexivity.
      * cbn. destruct (Wire.stringify v) eqn:Ev; cbn; [discriminate|].
        intros _. apply stringify_undefined in Ev. subst v. reflexivity.
      * cbn. intros [= ->]. reflexivity.
    + exists false. rewrite stringify_failure_body.
      repeat split; try reflexivity; try discriminate; try (intros; congruence).
      * right. right. reflexivity.
      * cbn. destruct (Wire.stringify m); reflexivity.
      * cbn. destruct (Wire.stringify m) eqn:Em; cbn; [discriminate|].
        intros _. apply stringify_undefined in Em. subst m. reflexivity.
      * cbn. intros [= ->]. reflexivity.
  - rewrite (post_costs_unselected S body v Hget Haws Hazure). cbn [snd res sent].
    intros [= <- <-]. exists false.
    repeat split; try reflexivity; try discriminate; try (intros; congruence).
    right. left. reflexivity.
Qed.

Lemma response_shape_witness :
  reply sample_services (january_request (VStr "azure")) =
    Some (500, failure_body (VStr "Too many requests")) /\
  Wire.response_received sample_services (january_request (VStr "azure")) =
    Some (500, Wire.stringify (failure_body (VStr "Too many requests"))) /\
  Wire.json_field "message" (Wire.stringify (failure_body (VStr "Too many requests")))
    = Some (Wire.JStr "Too many requests").
Proof.
  split; [reflexivity|]. split; [|reflexivity].
  exact (proj1 (response_shape sample_services (january_request (VStr "azure")) 500
                  (failure_body (VStr "Too many requests")) eq_refl)).
Defined.

(** The worked example: an AWS request for January 2024, answered with
    [{ total: 123.45 }], yields 200 and [{success: true, costs: {total: 123.45}}]. *)
Example january_aws_request :
  post_costs sample_services (january_request (VStr "aws")) =
    (Normal tt,
     {| res := {| statusCode := 200;
                  sent := Some (200, VObj [("success", VBool true);
                                           ("costs", january_total)]) |};
        calls := [(Aws, january_request (VStr "aws"))] |}).
Proof. reflexivity. Qed.

(** A collaborator that rejects with [null]: the status is set to 500, then
    reading [error.message] throws inside [catch] and nothing is sent. *)
Example rejected_with_null :
  post_costs {| awsService_fetchCosts := fun _ => Rejects VNull;
                azureService_fetchCosts := fun _ => NeverSettles |}
             (january_request (VStr "aws")) =
    (Thrown (type_error "Cannot read properties (reading 'message')"),
     {| res := {| statusCode := 500; sent := None |};
        calls := [(Aws, january_request (VStr "aws"))] |}).
Proof. reflexivity. Qed.

(* ====================================================================== *)
(** ** Properties of the metrics module *)
(* ====================================================================== *)

Import Metrics.

(** The module has no state and no guard of its own: evaluated on any world,
    it makes the two library calls in order, and what comes of it is what
    the library returns or raises. *)
Lemma metrics_js_run {R H} (client : prom_client R H) (w : world R) :
  metrics_js client w =
    match collectDefaultMetrics client default_metrics_config (registry w) with
    | (Raises e, r1) =>
        (Thrown e,
         {| registry := r1;
            log := log w ++ [CollectDefaultMetrics default_metrics_config] |})
    | (Returns _, r1) =>
        match Histogram client http_request_duration_config r1 with
        | (Raises e, r2) =>
            (Thrown e,
             {| registry := r2;
                log := (log w ++ [CollectDefaultMetrics default_metrics_config])
                         ++ [NewHistogram http_request_duration_config] |})
        | (Returns h, r2) =>
            (Normal {| exported_client := client;
                       httpRequestDurationMicroseconds := h |},
             {| registry := r2;
                log := (log w ++ [CollectDefaultMetrics default_metrics_config])
                         ++ [NewHistogram http_request_duration_config] |})
        end
    end.
Proof.
  unfold metrics_js, Js.bind, call. cbn.
  destruct (collectDefaultMetrics client default_metrics_config (registry w))
    as [[u | e] r1]; cbn; [|reflexivity].
  destruct (Histogram client http_request_duration_config r1) as [[h | e] r2];
    reflexivity.
Qed.

(** C7.  When the module has been evaluated, the library was asked for
    exactly one histogram, named [http_request_duration_ms], with label names
    [method], [route], [code] and bucket bounds
    50, 100, 200, 300, 400, 500, 750, 1000, 2500, 5000, 10000 (ms), after
    default-metrics collection was started once with a 5000 ms (5 s) probe
    period; the exported histogram is the one the library constructed. *)
Theorem metrics_registration {R H} (client : prom_client R H) (r : R)
    (e : exports R H) (w : world R) :
  load client r = (Normal e, w) ->
  histograms (log w) =
    [ {| name := "http_request_duration_ms";
         help := "Duration of HTTP requests in ms";
         labelNames := ["method"; "route"; "code"];
         buckets := [50; 100; 200; 300; 400; 500; 750; 1000; 2500; 5000; 10000] |} ] /\
  default_collections (log w) = [ {| timeout := 5 * 1000 |} ] /\
  log w = [ CollectDefaultMetrics default_metrics_config;
            NewHistogram http_request_duration_config ] /\
  fst (Histogram client http_request_duration_config
         (snd (collectDefaultMetrics client default_metrics_config r)))
    = Returns (httpRequestDurationMicroseconds e).
Proof.
  unfold load. rewrite metrics_js_run. cbn [registry log app].
  destruct (collectDefaultMetrics client default_metrics_config r)
    as [[u | e1] r1]; [|discriminate].
  cbn [snd].
  destruct (Histogram client http_request_duration_config r1) as [[h | e2] r2];
    [|discriminate].
  intros [= <- <-]. repeat split.
Qed.

Lemma metrics_registration_witness :
  load accepting_client 0%nat = (Normal accepted_exports, accepted_world) /\
  histograms (log accepted_world) = [ http_request_duration_config ] /\
  default_collections (log accepted_world) = [ {| timeout := 5000 |} ].
Proof.
  split; [reflexivity|].
  pose proof (metrics_registration accepting_client 0%nat
                accepted_exports accepted_world eq_refl) as [Hh [Hd _]].
  split; [exact Hh | exact Hd].
Defined.

(* ====================================================================== *)
(** ** Properties of the deployment script *)
(* ====================================================================== *)

Import Deploy.

Section Errexit.
Local Open Scope sh_scope.

Lemma is_probe_In (c : command) : is_probe c = true <-> In c probes.
Proof.
  unfold is_probe. rewrite existsb_exists. split.
  - intros [x [Hin Heq]]. unfold command_eqb in Heq.
    apply andb_true_iff in Heq. destruct Heq as [Hl Hn].
    apply Nat.eqb_eq in Hl. apply String.eqb_eq in Hn.
    destruct c as [l n], x as [l' n']. cbn in Hl, Hn. subst. exact Hin.
  - intro Hin. exists c. split; [exact Hin|].
    unfold command_eqb. rewrite Nat.eqb_refl, String.eqb_refl. reflexivity.
Qed.

Lemma clean_app (h : host) (l1 l2 : list command) :
  clean h l1 -> clean h l2 -> clean h (l1 ++ l2).
Proof. unfold clean. intros H1 H2. apply Forall_app. split; assumption. Qed.

Lemma clean_probes (h : host) (l : list command) :
  Forall (fun c => In c probes) l -> clean h l.
Proof.
  unfold clean. intro Hp. eapply Forall_impl; [|exact Hp].
  intros c Hc. right. exact Hc.
Qed.

Lemma stopped_after (h : host) (l1 l2 : list command) :
  clean h l1 -> stopped h l2 -> stopped h (l1 ++ l2).
Proof.
  intros H1 [before [c [-> [Hb Hc]]]].
  exists (l1 ++ before), c. rewrite app_assoc.
  repeat split; [apply clean_app; assumption | exact Hc].
Qed.

Lemma probing_status (c : command) : In c probes -> probing (status c).
Proof.
  intros Hin h s. exists (h c), [c]. split; [reflexivity|].
  constructor; [exact Hin | constructor].
Qed.

Lemma probing_pipe (a b : Sh bool) : probing a -> probing b -> probing (pipe a b).
Proof.
  intros Ha Hb h s. unfold pipe, bind.
  destruct (Ha h s) as [oka [ma [Ea Pa]]]. rewrite Ea.
  destruct (Hb h {| errexit := errexit s; ran := ran s ++ ma |})
    as [okb [mb [Eb Pb]]].
  rewrite Eb. cbn [errexit ran]. exists okb, (ma ++ mb).
  rewrite app_assoc. split; [reflexivity|]. apply Forall_app. split; assumption.
Qed.

Lemma probing_not (a : Sh bool) : probing a -> probing (not_ a).
Proof.
  intros Ha h s. unfold not_, bind, ret.
  destruct (Ha h s) as [ok [more [E P]]]. rewrite E.
  exists (negb ok), more. split; [reflexivity | exact P].
Qed.

Lemma reporting_status (c : command) : reporting (status c).
Proof.
  intros h s. exists (h c), [c]. split; [reflexivity|].
  destruct (h c) eqn:E.
  - constructor; [left; exact E | constructor].
  - exists [], c. repeat split; [constructor | exact E].
Qed.

Lemma reporting_with_argument (a : command) (m : Sh bool) :
  In a probes -> reporting m -> reporting (with_argument a m).
Proof.
  intros Hin Hm h s. unfold with_argument, bind, status.
  destruct (Hm h {| errexit := errexit s; ran := ran s ++ [a] |})
    as [ok [more [E P]]].
  rewrite E. cbn [errexit ran]. exists ok, ([a] ++ more).
  rewrite app_assoc. split; [reflexivity|].
  assert (Ca : clean h [a]) by (constructor; [right; exact Hin | constructor]).
  destruct ok; [apply clean_app | apply stopped_after]; assumption.
Qed.

Lemma reporting_and_list (a b : Sh bool) :
  reporting a -> reporting b -> reporting (and_list a b).
Proof.
  intros Ha Hb h s. unfold and_list, bind, ret.
  destruct (Ha h s) as [oka [ma [Ea Pa]]]. rewrite Ea.
  destruct oka.
  - destruct (Hb h {| errexit := errexit s; ran := ran s ++ ma |})
      as [okb [mb [Eb Pb]]].
    rewrite Eb. cbn [errexit ran]. exists okb, (ma ++ mb).
    rewrite app_assoc. split; [reflexivity|].
    destruct okb; [apply clean_app | apply stopped_after]; assumption.
  - exists false, ma. split; [reflexivity | exact Pa].
Qed.

Lemma fail_fast_stmt (m : Sh bool) : reporting m -> fail_fast (stmt m).
Proof.
  intros Hm h s He. unfold stmt.
  destruct (Hm h s) as [ok [more [E P]]]. rewrite E. cbn [errexit]. rewrite He.
  destruct ok.
  - exists (Continue tt), more. split; [reflexivity | exact P].
  - exists Exit, more. split; [reflexivity | exact P].
Qed.

Lemma fail_fast_simple (c : command) : fail_fast (simple c).
Proof. apply fail_fast_stmt, reporting_status. Qed.

Lemma fail_fast_seq (m k : Sh unit) :
  fail_fast m -> fail_fast k -> fail_fast (m ;; k).
Proof.
  intros Hm Hk h s He. unfold bind.
  destruct (Hm h s He) as [r [more [E P]]]. rewrite E.
  destruct r as [[]|].
  - destruct (Hk h {| errexit := true; ran := ran s ++ more |} eq_refl)
      as [r' [more' [E' P']]].
    rewrite E'. cbn [errexit ran]. exists r', (more ++ more').
    rewrite app_assoc. split; [reflexivity|].
    destruct r'; [apply clean_app | apply stopped_after]; assumption.
  - exists Exit, more. split; [reflexivity | exact P].
Qed.

Lemma fail_fast_if (cond : Sh bool) (yes no : Sh unit) :
  probing cond -> fail_fast yes -> fail_fast no -> fail_fast (if_ cond yes no).
Proof.
  intros Hc Hy Hn h s He. unfold if_, bind.
  destruct (Hc h s) as [ok [more [E P]]]. rewrite E, He.
  assert (Hb : fail_fast (if ok then yes else no)) by (destruct ok; assumption).
  destruct (Hb h {| errexit := true; ran := ran s ++ more |} eq_refl)
    as [r' [more' [E' P']]].
  rewrite E'. cbn [errexit ran]. exists r', (more ++ more').
  rewrite app_assoc. split; [reflexivity|].
  apply (clean_probes h) in P.
  destruct r'; [apply clean_app | apply stopped_after]; assumption.
Qed.

End Errexit.

Ltac probe_listed := cbn; tauto.

Ltac walk_script :=
  repeat first
    [ apply fail_fast_simple
    | apply fail_fast_if
    | apply fail_fast_stmt
    | apply fail_fast_seq
    | apply probing_not
    | apply probing_pipe
    | apply probing_status; probe_listed
    | apply reporting_and_list
    | apply reporting_with_argument; [probe_listed|]
    | apply reporting_status ].

(** Whatever the host does, the script either runs to its end with no failure
    outside the probes, or stops right after the command that failed. *)
Lemma deploy_lambdas_run (h : host) :
  exists r more,
    run h = (r, {| errexit := true; ran := more |}) /\
    match r with
    | Continue _ => clean h more
    | Exit => stopped h more
    end.
Proof.
  assert (Hrest : forall k : Sh unit, fail_fast k ->
            exists r more,
              bind set_e (fun _ => k) h {| errexit := false; ran := [] |}
                = (r, {| errexit := true; ran := more |}) /\
              match r with
              | Continue _ => clean h more
              | Exit => stopped h more
              end).
  { intros k Hk. unfold bind, set_e. cbn [ran].
    destruct (Hk h {| errexit := true; ran := [] |} eq_refl) as [r [more [E P]]].
    exists r, more. split; [exact E | exact P]. }
  unfold run, deploy_lambdas. apply Hrest. walk_script.
Qed.

(** C8, as claimed, fails: when [aws iam get-role] on line 126 fails, the
    script does not stop.  The failure is read as "the role does not exist":
    [aws iam create-role] on line 127 runs next, and the run goes on to the
    last [echo]. *)
Lemma failed_probe_does_not_abort :
  let h := only_fails (126%nat, "aws iam get-role") in
  In (126%nat, "aws iam get-role") (executed h) /\
  h (126%nat, "aws iam get-role") = false /\
  aborted h = false /\
  In (127%nat, "aws iam create-role") (executed h) /\
  last (executed h) (0%nat, "") = (232%nat, "echo").
Proof.
  cbv zeta. split; [vm_compute; tauto|].
  split; [reflexivity|]. split; [reflexivity|].
  split; [vm_compute; tauto | reflexivity].
Qed.

(** C8, amended.  After [set -e], a command that fails and is not a probe
    (the condition of an [if], a side of a pipeline there, or the [dirname]
    substitution on line 36) ends the script at once: the run is aborted and
    that command is the last one executed, so no later step and no rollback
    runs. *)
Theorem errexit_stops_the_script (h : host) (c : command) :
  In c (executed h) ->
  h c = false ->
  is_probe c = false ->
  aborted h = true /\ exists before, executed h = before ++ [c].
Proof.
  intros Hin Hfail Hprobe.
  assert (Hnot : ~ In c probes).
  { intro Hp. apply is_probe_In in Hp. rewrite Hp in Hprobe. discriminate. }
  assert (Hclean : forall l, clean h l -> ~ In c l).
  { intros l Hl Hc. unfold clean in Hl. rewrite Forall_forall in Hl.
    destruct (Hl c Hc) as [Hok | Hp]; [congruence | contradiction]. }
  unfold aborted, executed in *.
  destruct (deploy_lambdas_run h) as [r [more [E P]]].
  rewrite E in *. cbn [fst snd ran] in *.
  destruct r as [[]|].
  - exfalso. exact (Hclean more P Hin).
  - split; [reflexivity|].
    destruct P as [before [c' [-> [Hb Hc']]]].
    apply in_app_or in Hin. destruct Hin as [Hin | [-> | []]].
    + exfalso. exact (Hclean before Hb Hin).
    + exists before. reflexivity.
Qed.

Lemma errexit_stops_the_script_witness :
  (In (74%nat, "aws s3 mb") (executed (only_fails (74%nat, "aws s3 mb"))) /\
   only_fails (74%nat, "aws s3 mb") (74%nat, "aws s3 mb") = false /\
   is_probe (74%nat, "aws s3 mb") = false) /\
  aborted (only_fails (74%nat, "aws s3 mb")) = true.
Proof.
  assert (Hin : In (74%nat, "aws s3 mb") (executed (only_fails (74%nat, "aws s3 mb"))))
    by (vm_compute; tauto).
  split; [repeat split; [exact Hin]|].
  exact (proj1 (errexit_stops_the_script (only_fails (74%nat, "aws s3 mb"))
                  (74%nat, "aws s3 mb") Hin eq_refl eq_refl)).
Defined.

(* ====================================================================== *)
(** ** The script runs its plan *)
(* ====================================================================== *)

Import DeployPlan.

Section Plan_facts.
Local Open Scope sh_scope.

Lemma command_eqb_eq (a b : command) : command_eqb a b = true <-> a = b.
Proof.
  unfold command_eqb. rewrite andb_true_iff, Nat.eqb_eq, String.eqb_eq.
  destruct a, b; cbn. split; [intros [-> ->] | intros [= -> ->]]; auto.
Qed.

Lemma passes_app (h : host) (l1 l2 : list command) :
  passes h (l1 ++ l2) = passes h l1 && passes h l2.
Proof. apply forallb_app. Qed.

Lemma cut_passes (h : host) (l : list command) :
  passes h l = true -> cut h l = l.
Proof.
  induction l as [|c l IH]; [reflexivity|]. cbn.
  destruct (harmless h c); [|discriminate]. cbn. intro Hp. rewrite IH; auto.
Qed.

Lemma cut_app (h : host) (l1 l2 : list command) :
  cut h (l1 ++ l2) = if passes h l1 then l1 ++ cut h l2 else cut h l1.
Proof.
  unfold passes. induction l1 as [|c l1 IH]; [reflexivity|]. cbn.
  destruct (harmless h c); [|reflexivity]. cbn. rewrite IH.
  destruct (forallb (harmless h) l1); reflexivity.
Qed.

Lemma probes_pass (h : host) (l : list command) :
  forallb is_probe l = true -> passes h l = true.
Proof.
  unfold passes. induction l as [|c l IH]; [reflexivity|]. cbn [forallb].
  intro Hp. apply andb_true_iff in Hp. destruct Hp as [Hc Hl].
  unfold harmless at 1. rewrite Hc, orb_true_r. cbn [andb]. auto.
Qed.

Lemma tests_status (c : command) :
  is_probe c = true -> tests (status c) (fun _ => [c]) (fun h => h c).
Proof.
  intros Hp h s. split; [reflexivity|]. cbn [forallb]. rewrite Hp. reflexivity.
Qed.

Lemma tests_pipe (a b : Sh bool) pa pb ba bb :
  tests a pa ba -> tests b pb bb ->
  tests (pipe a b) (fun h => pa h ++ pb h) bb.
Proof.
  intros Ha Hb h s. unfold pipe, bind.
  destruct (Ha h s) as [Ea Pa]. rewrite Ea.
  destruct (Hb h {| errexit := errexit s; ran := ran s ++ pa h |}) as [Eb Pb].
  rewrite Eb. cbn [errexit ran]. rewrite app_assoc. split; [reflexivity|].
  rewrite forallb_app, Pa, Pb. reflexivity.
Qed.

Lemma tests_not (a : Sh bool) pa ba :
  tests a pa ba -> tests (not_ a) pa (fun h => negb (ba h)).
Proof.
  intros Ha h s. unfold not_, bind, ret.
  destruct (Ha h s) as [Ea Pa]. rewrite Ea. split; [reflexivity | exact Pa].
Qed.

Lemma reports_status (c : command) :
  is_probe c = false -> reports (status c) (fun _ => [c]).
Proof.
  intros Hp h s. unfold status, passes. cbn [forallb cut].
  unfold harmless. rewrite Hp, orb_false_r, andb_true_r.
  destruct (h c); reflexivity.
Qed.

Lemma reports_with_argument (a : command) (m : Sh bool) pm :
  is_probe a = true -> reports m pm ->
  reports (with_argument a m) (fun h => [a] ++ pm h).
Proof.
  intros Hp Hm h s. unfold with_argument, bind, status.
  rewrite Hm. cbn [errexit ran app passes forallb cut].
  unfold harmless at 1 3. rewrite Hp, orb_true_r. cbn [andb].
  rewrite <- app_assoc. reflexivity.
Qed.

Lemma reports_and_list (a b : Sh bool) pa pb :
  reports a pa -> reports b pb ->
  reports (and_list a b) (fun h => pa h ++ pb h).
Proof.
  intros Ha Hb h s. unfold and_list, bind, ret.
  rewrite Ha, passes_app, cut_app.
  destruct (passes h (pa h)) eqn:Epa; cbn [andb].
  - rewrite Hb. cbn [errexit ran]. rewrite (cut_passes h _ Epa), app_assoc.
    reflexivity.
  - reflexivity.
Qed.

Lemma follows_stmt (m : Sh bool) p : reports m p -> follows (stmt m) p.
Proof.
  intros Hm h s He. unfold stmt. rewrite Hm. cbn [errexit]. rewrite He.
  destruct (passes h (p h)); reflexivity.
Qed.

Lemma follows_simple (c : command) :
  is_probe c = false -> follows (simple c) (fun _ => [c]).
Proof. intro Hp. apply follows_stmt, reports_status, Hp. Qed.

Lemma follows_seq (m k : Sh unit) pm pk :
  follows m pm -> follows k pk ->
  follows (m ;; k) (fun h => pm h ++ pk h).
Proof.
  intros Hm Hk h s He. unfold bind.
  rewrite (Hm h s He), passes_app, cut_app.
  destruct (passes h (pm h)) eqn:Epm; cbn [andb]; [|reflexivity].
  rewrite (Hk h {| errexit := true; ran := ran s ++ cut h (pm h) |} eq_refl).
  cbn [ran]. rewrite (cut_passes h _ Epm), app_assoc. reflexivity.
Qed.

Lemma follows_if (cond : Sh bool) (yes no : Sh unit) pc b py pn :
  tests cond pc b -> follows yes py -> follows no pn ->
  follows (if_ cond yes no) (fun h => pc h ++ if b h then py h else pn h).
Proof.
  intros Hc Hy Hn h s He. unfold if_, bind.
  destruct (Hc h s) as [Ec Pc]. rewrite Ec, He.
  rewrite passes_app, cut_app, (probes_pass h _ Pc). cbn [andb].
  destruct (b h).
  - rewrite (Hy h {| errexit := true; ran := ran s ++ pc h |} eq_refl).
    cbn [ran]. rewrite app_assoc. reflexivity.
  - rewrite (Hn h {| errexit := true; ran := ran s ++ pc h |} eq_refl).
    cbn [ran]. rewrite app_assoc. reflexivity.
Qed.

Lemma follows_ext (m : Sh unit) p q :
  follows m p -> (forall h, p h = q h) -> follows m q.
Proof. intros Hm Hpq h s He. rewrite <- Hpq. exact (Hm h s He). Qed.

End Plan_facts.

Ltac walk_plan :=
  repeat first
    [ eapply follows_simple; reflexivity
    | eapply follows_if
    | eapply follows_stmt
    | eapply follows_seq
    | eapply tests_not
    | eapply tests_pipe
    | eapply tests_status; reflexivity
    | eapply reports_and_list
    | eapply reports_with_argument; [reflexivity|]
    | eapply reports_status; reflexivity ].

(** The run of the script, computed from its plan. *)
Lemma run_is_cut_plan (h : host) :
  run h = (if passes h (plan h) then Continue tt else Exit,
           {| errexit := true; ran := cut h (plan h) |}).
Proof.
  assert (Hrest : forall (k : Sh unit) p, follows k p ->
            bind set_e (fun _ => k) h {| errexit := false; ran := [] |}
              = (if passes h (p h) then Continue tt else Exit,
                 {| errexit := true; ran := cut h (p h) |})).
  { intros k p Hk. unfold bind, set_e. cbn [ran].
    exact (Hk h {| errexit := true; ran := [] |} eq_refl). }
  unfold run, deploy_lambdas. apply Hrest.
  eapply follows_ext; [walk_plan | intro h'; reflexivity].
Qed.

Lemma executed_cut (h : host) : executed h = cut h (plan h).
Proof. unfold executed. rewrite run_is_cut_plan. reflexivity. Qed.

Lemma aborted_passes (h : host) : aborted h = negb (passes h (plan h)).
Proof.
  unfold aborted. rewrite run_is_cut_plan.
  destruct (passes h (plan h)); reflexivity.
Qed.

Lemma cut_incl (h : host) (c : command) (l : list command) :
  In c (cut h l) -> In c l.
Proof.
  induction l as [|y l IH]; [intros []|]. cbn [cut].
  destruct (harmless h y).
  - intros [-> | Hin]; [left | right; apply IH]; auto.
  - intros [-> | []]. left. reflexivity.
Qed.

Lemma In_mem (c : command) (l : list command) : In c l -> mem c l = true.
Proof.
  intro Hin. unfold mem. apply existsb_exists. exists c. split; [exact Hin|].
  apply command_eqb_eq. reflexivity.
Qed.

Lemma executed_mem (h : host) (c : command) :
  In c (executed h) -> mem c (plan h) = true.
Proof. rewrite executed_cut. intro Hin. apply In_mem, (cut_incl h), Hin. Qed.

Lemma cut_before (h : host) (x c : command) (l : list command) :
  In c (cut h l) -> before x c l = true -> harmless h x = true.
Proof.
  induction l as [|y l IH]; [intros []|]. cbn [cut before].
  destruct (command_eqb y c) eqn:Eyc; [discriminate|].
  assert (Hne : y <> c).
  { intro E. apply command_eqb_eq in E. congruence. }
  destruct (harmless h y) eqn:Ey.
  - intros [E | Hin]; [contradiction|].
    intro Hb. apply orb_true_iff in Hb. destruct Hb as [Hyx | Hb].
    + apply command_eqb_eq in Hyx. subst x. exact Ey.
    + exact (IH Hin Hb).
  - intros [E | []]. contradiction.
Qed.

Lemma passes_false_cut (h : host) (l : list command) :
  passes h l = false ->
  exists pre c,
    cut h l = pre ++ [c] /\ h c = false /\ is_probe c = false /\
    passes h pre = true.
Proof.
  unfold passes. induction l as [|y l IH]; [discriminate|]. cbn [forallb cut].
  destruct (harmless h y) eqn:Ey; cbn [andb].
  - intro Hl. destruct (IH Hl) as [pre [c [E [Hc [Hp Hpre]]]]].
    exists (y :: pre), c. rewrite E. cbn [forallb]. rewrite Ey, Hpre.
    repeat split; assumption.
  - intros _. exists [], y. unfold harmless in Ey.
    apply orb_false_iff in Ey. destruct Ey as [Hy Hp]. repeat split; assumption.
Qed.

(** Case analysis on the seven statuses a plan depends on. *)
Ltac plan_cases h :=
  unfold plan;
  generalize (h (73%nat, "grep")),
             (h (126%nat, "aws iam get-role")),
             (h (135%nat, "grep")),
             (h (147%nat, "aws iam get-policy")),
             (h (154%nat, "grep")),
             (h (180%nat, "aws lambda get-function")),
             (h (206%nat, "aws lambda get-function"));
  intros [] [] [] [] [] [] [].

(** X1.  The script runs its plan: on every host the commands executed are
    the planned ones, in order, up to and including the first that fails
    outside the probes; the script is aborted exactly when there is such a
    command; and [-e] is on at the end. *)
Theorem script_follows_plan (h : host) :
  executed h = cut h (plan h) /\
  aborted h = negb (passes h (plan h)) /\
  errexit (snd (run h)) = true.
Proof.
  split; [apply executed_cut|]. split; [apply aborted_passes|].
  rewrite run_is_cut_plan. reflexivity.
Qed.

(** X2.  The script runs to its end whenever every command outside the probes
    succeeds, whatever the probes report: it is not aborted, it executes its
    whole plan, and the last command is the final [echo]. *)
Theorem runs_to_the_end (h : host) :
  (forall c, is_probe c = false -> h c = true) ->
  aborted h = false /\
  executed h = plan h /\
  last (executed h) (0%nat, "") = (232%nat, "echo").
Proof.
  intro Hok.
  assert (Hp : forall l, passes h l = true).
  { unfold passes. induction l as [|c l IH]; [reflexivity|]. cbn [forallb].
    rewrite IH, andb_true_r. unfold harmless.
    destruct (is_probe c) eqn:Ec; [apply orb_true_r|].
    rewrite (Hok c Ec). reflexivity. }
  rewrite aborted_passes, executed_cut, (cut_passes h _ (Hp _)), Hp.
  repeat split. plan_cases h; reflexivity.
Qed.

Lemma runs_to_the_end_witness :
  (forall c, is_probe c = false -> negb (is_probe c) = true) /\
  aborted (fun c => negb (is_probe c)) = false /\
  In (185%nat, "aws lambda create-function") (executed (fun c => negb (is_probe c))).
Proof.
  assert (Hok : forall c, is_probe c = false -> negb (is_probe c) = true)
    by (intros c ->; reflexivity).
  split; [exact Hok|].
  destruct (runs_to_the_end (fun c => negb (is_probe c)) Hok) as [Ha [He _]].
  split; [exact Ha|]. rewrite He. vm_compute. tauto.
Defined.

(** X3.  An aborted run has a cause.  When the script is aborted, the last
    command executed is one outside the probes that failed, and no command
    before it failed outside the probes. *)
Theorem abort_has_a_cause (h : host) :
  aborted h = true ->
  exists before_it c,
    executed h = before_it ++ [c] /\ h c = false /\ is_probe c = false /\
    passes h before_it = true.
Proof.
  rewrite aborted_passes, executed_cut. intro Hp.
  apply negb_true_iff in Hp. exact (passes_false_cut h _ Hp).
Qed.

Lemma abort_has_a_cause_witness :
  aborted (only_fails (174%nat, "aws s3 cp")) = true /\
  exists before_it c,
    executed (only_fails (174%nat, "aws s3 cp")) = before_it ++ [c] /\
    only_fails (174%nat, "aws s3 cp") c = false.
Proof.
  split; [reflexivity|].
  destruct (abort_has_a_cause (only_fails (174%nat, "aws s3 cp")) eq_refl)
    as [b [c [E [Hc _]]]].
  exists b, c. split; assumption.
Defined.

Ltac by_plan h H :=
  apply executed_mem in H; revert H; plan_cases h;
  first [ intros _; reflexivity | vm_compute; discriminate ].

(** X4.  The script creates or attaches only what its probes report missing:
    [aws s3 mb] runs only when [grep] found [NoSuchBucket],
    [aws iam create-role] only when [aws iam get-role] failed,
    [aws iam create-policy] only when [aws iam get-policy] failed, and each
    [aws iam attach-role-policy] only when the [grep] over the attached
    policies found nothing. *)
Theorem creation_is_guarded (h : host) :
  (In (74%nat, "aws s3 mb") (executed h) -> h (73%nat, "grep") = true) /\
  (In (127%nat, "aws iam create-role") (executed h) ->
     h (126%nat, "aws iam get-role") = false) /\
  (In (137%nat, "aws iam attach-role-policy") (executed h) ->
     h (135%nat, "grep") = false) /\
  (In (149%nat, "aws iam create-policy") (executed h) ->
     h (147%nat, "aws iam get-policy") = false) /\
  (In (156%nat, "aws iam attach-role-policy") (executed h) ->
     h (154%nat, "grep") = false).
Proof.
  repeat split; intro H; by_plan h H.
Qed.

(** X5.  For each Lambda function the script either updates or creates, never
    both: [update-function-code] runs only when [aws lambda get-function]
    succeeded and [create-function] only when it failed. *)
Theorem create_or_update (h : host) :
  (In (182%nat, "aws lambda update-function-code") (executed h) ->
     h (180%nat, "aws lambda get-function") = true) /\
  (In (185%nat, "aws lambda create-function") (executed h) ->
     h (180%nat, "aws lambda get-function") = false) /\
  (In (208%nat, "aws lambda update-function-code") (executed h) ->
     h (206%nat, "aws lambda get-function") = true) /\
  (In (211%nat, "aws lambda create-function") (executed h) ->
     h (206%nat, "aws lambda get-function") = false) /\
  ~ (In (182%nat, "aws lambda update-function-code") (executed h) /\
     In (185%nat, "aws lambda create-function") (executed h)) /\
  ~ (In (208%nat, "aws lambda update-function-code") (executed h) /\
     In (211%nat, "aws lambda create-function") (executed h)).
Proof.
  assert (H1 : In (182%nat, "aws lambda update-function-code") (executed h) ->
               h (180%nat, "aws lambda get-function") = true)
    by (intro H; by_plan h H).
  assert (H2 : In (185%nat, "aws lambda create-function") (executed h) ->
               h (180%nat, "aws lambda get-function") = false)
    by (intro H; by_plan h H).
  assert (H3 : In (208%nat, "aws lambda update-function-code") (executed h) ->
               h (206%nat, "aws lambda get-function") = true)
    by (intro H; by_plan h H).
  assert (H4 : In (211%nat, "aws lambda create-function") (executed h) ->
               h (206%nat, "aws lambda get-function") = false)
    by (intro H; by_plan h H).
  repeat split; try assumption.
  - intros [Hu Hc]. specialize (H1 Hu). specialize (H2 Hc). congruence.
  - intros [Hu Hc]. specialize (H3 Hu). specialize (H4 Hc). congruence.
Qed.

Lemma ran_after (h : host) (x c : command) :
  In c (executed h) -> before x c (plan h) = true -> is_probe x = false ->
  h x = true.
Proof.
  rewrite executed_cut. intros Hin Hb Hp.
  pose proof (cut_before h x c _ Hin Hb) as Hx.
  unfold harmless in Hx. rewrite Hp, orb_false_r in Hx. exact Hx.
Qed.

Ltac comes_first h := plan_cases h; vm_compute; reflexivity.

(** X6.  A Lambda function is updated or created only after the role ARN was
    read, the wait for propagation ended, and the function's archive was
    zipped, uploaded and removed locally, all successfully; the second
    function is reached only after the first one's update or creation
    succeeded. *)
Theorem functions_wait_for_their_upload (h : host) :
  (In (182%nat, "aws lambda update-function-code") (executed h) \/
   In (185%nat, "aws lambda create-function") (executed h) ->
     h (164%nat, "aws iam get-role") = true /\
     h (169%nat, "sleep") = true /\
     h (173%nat, "zip") = true /\
     h (174%nat, "aws s3 cp") = true /\
     h (175%nat, "rm") = true) /\
  (In (208%nat, "aws lambda update-function-code") (executed h) \/
   In (211%nat, "aws lambda create-function") (executed h) ->
     h (199%nat, "zip") = true /\
     h (200%nat, "aws s3 cp") = true /\
     h (201%nat, "rm") = true /\
     h (if h (180%nat, "aws lambda get-function")
        then (182%nat, "aws lambda update-function-code")
        else (185%nat, "aws lambda create-function")) = true).
Proof.
  split.
  - intros [H | H]; repeat split;
      (eapply ran_after; [exact H | comes_first h | reflexivity]).
  - intros [H | H]; (repeat split;
      [ eapply ran_after; [exact H | comes_first h | reflexivity] ..
      | destruct (h (180%nat, "aws lambda get-function")) eqn:E;
        (eapply ran_after;
         [ exact H
         | unfold plan; rewrite E;
           generalize (h (73%nat, "grep")), (h (126%nat, "aws iam get-role")),
                      (h (135%nat, "grep")), (h (147%nat, "aws iam get-policy")),
                      (h (154%nat, "grep")), (h (206%nat, "aws lambda get-function"));
           intros [] [] [] [] [] []; vm_compute; reflexivity
         | reflexivity ]) ]).
Qed.

Lemma harmless_override (h : host) (c : command) (ok : bool) (x : command) :
  is_probe c = true -> harmless (override h c ok) x = harmless h x.
Proof.
  intro Hp. unfold harmless, override.
  destruct (command_eqb x c) eqn:E; [|reflexivity].
  apply command_eqb_eq in E. subst x. rewrite Hp, !orb_true_r. reflexivity.
Qed.

Lemma cut_override (h : host) (c : command) (ok : bool) (l : list command) :
  is_probe c = true ->
  cut (override h c ok) l = cut h l /\ passes (override h c ok) l = passes h l.
Proof.
  intro Hp. unfold passes.
  induction l as [|x l [IHc IHp]]; [split; reflexivity|].
  cbn [cut forallb]. rewrite (harmless_override h c ok x Hp), IHc, IHp.
  split; reflexivity.
Qed.

(** X7.  The exit status of a masked command changes nothing: whether
    [aws s3 ls], either [aws iam list-attached-role-policies] or the
    [dirname] on line 36 succeeds or fails, the script runs the same
    commands and ends the same way. *)
Theorem masked_status_is_ignored (h : host) (c : command) (ok : bool) :
  In c masked -> run (override h c ok) = run h.
Proof.
  intro Hin. rewrite !run_is_cut_plan.
  assert (Hc : is_probe c = true /\ plan (override h c ok) = plan h).
  { destruct Hin as [<- | [<- | [<- | [<- | []]]]]; split; reflexivity. }
  destruct Hc as [Hp Hplan]. rewrite Hplan.
  destruct (cut_override h c ok (plan h) Hp) as [-> ->]. reflexivity.
Qed.

Lemma masked_status_is_ignored_witness :
  In (73%nat, "aws s3 ls") masked /\
  run (override (fun _ => true) (73%nat, "aws s3 ls") false) = run (fun _ => true) /\
  override (fun _ => true) (73%nat, "aws s3 ls") false (73%nat, "aws s3 ls") = false.
Proof.
  assert (Hin : In (73%nat, "aws s3 ls") masked) by (cbn; tauto).
  split; [exact Hin|]. split; [|reflexivity].
  exact (masked_status_is_ignored (fun _ => true) (73%nat, "aws s3 ls") false Hin).
Defined.

(* ====================================================================== *)
(** ** More on the cost router *)
(* ====================================================================== *)

Import Samples.

(** X8.  The handler's promise is fulfilled exactly when a response was sent:
    every request that the handler finishes got an answer, and a run that
    throws or stays suspended sent none. *)
Theorem fulfilled_iff_replied (S : services) (body : value) :
  fst (post_costs S body) = Normal tt <->
  exists code payload, reply S body = Some (code, payload).
Proof.
  unfold reply.
  destruct (post_costs_cases S body) as [Hn | [[p Hsel] | [v [Hget [Haws Hazure]]]]].
  - rewrite (post_costs_nullish S body Hn). cbn.
    split; [discriminate | intros [c [pl E]]; discriminate E].
  - rewrite (post_costs_selected S body p Hsel).
    destruct (fetchCosts S p body) as [v | e |];
      [ | destruct (get_named e "message") as [m|] | ]; cbn;
      (split; [ first [ discriminate | intros _; eexists; eexists; reflexivity ]
              | first [ intros _; reflexivity | intros [c [pl E]]; discriminate E ] ]).
  - rewrite (post_costs_unselected S body v Hget Haws Hazure). cbn.
    split; [intros _; eexists; eexists; reflexivity | reflexivity].
Qed.



(** X10.  There is no timeout: while the selected collaborator's promise
    stays unsettled the handler stays suspended, the status is untouched and
    nothing is sent. *)
Theorem unsettled_collaborator_gets_no_reply
    (S : services) (body : value) (p : provider) :
  get_named body "cloudProvider" = Some (VStr (selector p)) ->
  fetchCosts S p body = NeverSettles ->
  fst (post_costs S body) = Suspended /\
  reply S body = None /\
  statusCode (res (snd (post_costs S body))) = 200 /\
  invoked S body = [(p, body)].
Proof.
  intros Hsel Hn. unfold reply, invoked.
  rewrite (post_costs_selected S body p Hsel), Hn. repeat split.
Qed.

Lemma unsettled_collaborator_gets_no_reply_witness :
  fetchCosts stalled_services Aws (january_request (VStr "aws")) = NeverSettles /\
  reply stalled_services (january_request (VStr "aws")) = None.
Proof.
  split; [reflexivity|].
  exact (proj1 (proj2 (unsettled_collaborator_gets_no_reply stalled_services
                         (january_request (VStr "aws")) Aws eq_refl eq_refl))).
Defined.

(** X11.  A rejection with [null] or [undefined] escapes the [catch] block:
    the status is set to 500, then reading [error.message] throws a
    [TypeError], so the handler's promise is rejected and nothing is sent. *)
Theorem nullish_rejection_escapes_catch
    (S : services) (body : value) (p : provider) (e : value) :
  get_named body "cloudProvider" = Some (VStr (selector p)) ->
  fetchCosts S p body = Rejects e ->
  is_nullish e = true ->
  (exists err, fst (post_costs S body) = Thrown err /\
               field "name" err = Some (VStr "TypeError")) /\
  reply S body = None /\
  statusCode (res (snd (post_costs S body))) = 500.
Proof.
  intros Hsel Hrej Hn. unfold reply.
  rewrite (post_costs_selected S body p Hsel), Hrej.
  assert (Hm : get_named e "message" = None)
    by (destruct e; try discriminate Hn; reflexivity).
  rewrite Hm. repeat split. eexists. split; reflexivity.
Qed.

Lemma nullish_rejection_escapes_catch_witness :
  (fetchCosts null_rejecting_services Aws (january_request (VStr "aws")) = Rejects VNull /\
   is_nullish VNull = true) /\
  reply null_rejecting_services (january_request (VStr "aws")) = None.
Proof.
  split; [split; reflexivity|].
  exact (proj1 (proj2 (nullish_rejection_escapes_catch null_rejecting_services
                         (january_request (VStr "aws")) Aws VNull
                         eq_refl eq_refl eq_refl))).
Defined.

(** X12.  A rejection with a value that has no [message] (a thrown string or
    number, an object without that property) is answered 500 with
    [message: undefined]: what was thrown does not reach the payload. *)
Theorem rejection_without_message
    (S : services) (body : value) (p : provider) (e : value) :
  get_named body "cloudProvider" = Some (VStr (selector p)) ->
  fetchCosts S p body = Rejects e ->
  is_nullish e = false ->
  field "message" e = None ->
  reply S body = Some (500, VObj [("success", VBool false); ("message", VUndefined)]).
Proof.
  intros Hsel Hrej Hn Hf. unfold reply.
  rewrite (post_costs_selected S body p Hsel), Hrej.
  assert (Hm : get_named e "message" = Some VUndefined).
  { destruct e; try discriminate Hn; try reflexivity.
    cbn in Hf |- *. rewrite Hf. reflexivity. }
  rewrite Hm. reflexivity.
Qed.

Lemma rejection_without_message_witness :
  (is_nullish (VStr "Throttled") = false /\ field "message" (VStr "Throttled") = None) /\
  reply string_throwing_services (january_request (VStr "aws")) =
    Some (500, VObj [("success", VBool false); ("message", VUndefined)]).
Proof.
  split; [split; reflexivity|].
  exact (rejection_without_message string_throwing_services
           (january_request (VStr "aws")) Aws (VStr "Throttled")
           eq_refl eq_refl eq_refl eq_refl).
Defined.

(** X13.  Only the selected collaborator matters: two pairs of collaborators
    that behave alike on the provider the body selects give the same run;
    when the body selects none, the run depends on no collaborator. *)
Theorem unselected_collaborator_is_irrelevant (S S' : services) (body : value) :
  (forall p, get_named body "cloudProvider" = Some (VStr (selector p)) ->
             fetchCosts S p body = fetchCosts S' p body) ->
  post_costs S body = post_costs S' body.
Proof.
  intro Hsame.
  destruct (post_costs_cases S body) as [Hn | [[p Hsel] | [v [Hget [Haws Hazure]]]]].
  - rewrite !post_costs_nullish by exact Hn. reflexivity.
  - rewrite (post_costs_selected S body p Hsel), (post_costs_selected S' body p Hsel).
    rewrite (Hsame p Hsel). reflexivity.
  - rewrite (post_costs_unselected S body v Hget Haws Hazure).
    rewrite (post_costs_unselected S' body v Hget Haws Hazure). reflexivity.
Qed.

Lemma unselected_collaborator_is_irrelevant_witness :
  fetchCosts sample_services Azure (january_request (VStr "aws")) <>
    fetchCosts other_azure_services Azure (january_request (VStr "aws")) /\
  post_costs sample_services (january_request (VStr "aws")) =
    post_costs other_azure_services (january_request (VStr "aws")).
Proof.
  split; [discriminate|].
  apply (unselected_collaborator_is_irrelevant sample_services other_azure_services).
  intros [] H; [reflexivity | discriminate H].
Defined.

(** X14.  For every body the handler makes at most one collaborator call; it
    makes one exactly when [cloudProvider] selects a provider, and the call
    then goes to that provider with the body as its argument. *)
Theorem at_most_one_call (S : services) (body : value) :
  (invoked S body = [] /\
   forall p, get_named body "cloudProvider" <> Some (VStr (selector p))) \/
  (exists p, get_named body "cloudProvider" = Some (VStr (selector p)) /\
             invoked S body = [(p, body)]).
Proof.
  unfold invoked.
  destruct (post_costs_cases S body) as [Hn | [[p Hsel] | [v [Hget [Haws Hazure]]]]].
  - left. rewrite (post_costs_nullish S body Hn). split; [reflexivity|].
    intros p. destruct body; try discriminate Hn; discriminate.
  - right. exists p. split; [exact Hsel|].
    rewrite (post_costs_selected S body p Hsel).
    destruct (fetchCosts S p body) as [v | e |];
      [ | destruct (get_named e "message") | ]; reflexivity.
  - left. rewrite (post_costs_unselected S body v Hget Haws Hazure).
    split; [reflexivity|].
    intros [] E; rewrite Hget in E; injection E as ->; contradiction.
Qed.




(* ====================================================================== *)
(** ** More on the metrics module *)
(* ====================================================================== *)

(** X16.  The module catches nothing and stops at the first raise.  When
    [collectDefaultMetrics] raises, the module throws that error and never
    constructs the histogram; when the [Histogram] constructor raises, the
    module throws that error with default-metrics collection already
    started; in both cases nothing is exported.  Conversely the module
    throws only what one of the two calls raised. *)
Theorem library_errors_escape_the_module {R H} (client : prom_client R H) (r : R)
    (e : value) (w : world R) :
  load client r = (Thrown e, w) <->
  (collectDefaultMetrics client default_metrics_config r = (Raises e, registry w) /\
   log w = [CollectDefaultMetrics default_metrics_config]) \/
  (exists r1,
     collectDefaultMetrics client default_metrics_config r = (Returns tt, r1) /\
     Histogram client http_request_duration_config r1 = (Raises e, registry w) /\
     log w = [CollectDefaultMetrics default_metrics_config;
              NewHistogram http_request_duration_config]).
Proof.
  unfold load. rewrite metrics_js_run. cbn [registry log app].
  destruct (collectDefaultMetrics client default_metrics_config r)
    as [[[] | e1] r1] eqn:Ec.
  - destruct (Histogram client http_request_duration_config r1)
      as [[h | e2] r2] eqn:Eh.
    + split; [discriminate|].
      intros [[E _] | [r1' [E1 [E2 _]]]]; [discriminate E|].
      injection E1 as <-. rewrite Eh in E2. discriminate E2.
    + split.
      * intros [= <- <-]. right. exists r1. cbn. repeat split. exact Eh.
      * intros [[E _] | [r1' [E1 [E2 El]]]]; [discriminate E|].
        injection E1 as <-. rewrite Eh in E2. injection E2 as -> ->.
        destruct w as [rw lw]. cbn in El |- *. rewrite El. reflexivity.
  - split.
    + intros [= <- <-]. left. cbn. split; reflexivity.
    + intros [[E El] | [r1' [E1 _]]]; [|discriminate E1].
      injection E as -> ->. destruct w as [rw lw]. cbn in El |- *.
      rewrite El. reflexivity.
Qed.

(** X17.  The module keeps no record of having run.  Evaluated again on the
    world a first evaluation left, it asks the library for default metrics
    again; and when that second evaluation completes, the library has been
    asked twice for a histogram of the same name. *)
Theorem second_evaluation_asks_again {R H} (client : prom_client R H) (r : R)
    (e : exports R H) (w : world R) :
  load client r = (Normal e, w) ->
  (exists rest,
     log (snd (metrics_js client w)) =
       log w ++ CollectDefaultMetrics default_metrics_config :: rest) /\
  (forall e' w',
     metrics_js client w = (Normal e', w') ->
     map name (histograms (log w')) =
       ["http_request_duration_ms"; "http_request_duration_ms"]).
Proof.
  intro Hload.
  assert (Hlog : log w = [CollectDefaultMetrics default_metrics_config;
                          NewHistogram http_request_duration_config]).
  { revert Hload. unfold load. rewrite metrics_js_run. cbn [registry log app].
    destruct (collectDefaultMetrics client default_metrics_config r)
      as [[u | e1] r1]; [|discriminate].
    destruct (Histogram client http_request_duration_config r1) as [[h | e2] r2];
      [|discriminate].
    intros [= <- <-]. reflexivity. }
  rewrite metrics_js_run, Hlog.
  destruct (collectDefaultMetrics client default_metrics_config (registry w))
    as [[u | e1] r1].
  - destruct (Histogram client http_request_duration_config r1) as [[h | e2] r2].
    + split; [eexists; reflexivity|]. intros e' w' [= <- <-]. reflexivity.
    + split; [eexists; reflexivity|]. discriminate.
  - split; [exists []; reflexivity|]. discriminate.
Qed.

Lemma second_evaluation_asks_again_witness :
  load accepting_client 0%nat = (Normal accepted_exports, accepted_world) /\
  (exists rest,
     log (snd (metrics_js accepting_client accepted_world)) =
       log accepted_world ++ CollectDefaultMetrics default_metrics_config :: rest).
Proof.
  split; [reflexivity|].
  exact (proj1 (second_evaluation_asks_again accepting_client 0%nat
                  accepted_exports accepted_world eq_refl)).
Defined.

(** With a client that serves each entry point once, the first evaluation
    completes and a second one throws at its first call. *)
Example single_use_client_twice :
  snd (load single_use_client 0%nat) = accepted_world /\
  metrics_js single_use_client accepted_world =
    (Thrown (type_error "default metrics are already collected"),
     {| registry := 2%nat;
        log := log accepted_world ++ [CollectDefaultMetrics default_metrics_config] |}).
Proof. split; reflexivity. Qed.

(** With a client whose constructor raises, the module throws after default
    metrics were started and exports nothing. *)
Example refusing_client_load :
  load refusing_client 0%nat =
    (Thrown (type_error "invalid histogram"),
     {| registry := 1%nat;
        log := [CollectDefaultMetrics default_metrics_config;
                NewHistogram http_request_duration_config] |}).
Proof. reflexivity. Qed.
